(** * Mood-aware IRC bot: sentiment classification, stores, latest-mood slot
      and the periodic re-announcement timer

    Shallow embedding of [irc-analysis.py]:
    - [SentimentAnalyzer.analyze_sentiment]   -> [analyze_sentiment]
    - [DatabaseManager]                       -> [setup_db],
      [get_user_preferences], [set_user_preferences], [log_sentiment]
      over the record [db]
    - [MoodAwareAI]                           -> [analyze_message],
      [get_latest_message]
    - [MoodCheckBot]                          -> [on_pubmsg],
      [schedule_periodic_mood_check], [check_and_respond_periodically]

    Python floats are IEEE-754 binary64 values, which is what Rocq's primitive
    [float] is; [polarity > 0.1] is the binary64 comparison [PrimFloat.ltb].
    Exceptions are carried by an explicit outcome type together with the
    state at the point of the raise. *)

From Stdlib Require Import Floats ZArith List Ascii String Lia.
From stdpp Require Import gmap strings list.

Local Open Scope string_scope.
Local Open Scope Z_scope.

(** ** Python-level values *)

(** An exception is identified by the name of its class. *)
Definition exn := string.

(** Outcome of a call: a returned value or a raised exception. *)
Inductive outcome (A : Type) : Type :=
| Return (a : A)
| Raise (e : exn).
Arguments Return {A} a.
Arguments Raise {A} e.

(** What a function hands back when the caller looks at it as a Python
    object: [None] (falling off the end of a [def]) or an integer. *)
Inductive pyval : Type :=
| PyNone
| PyInt (z : Z).

(** The three labels the analyzer produces ('Positive', 'Negative',
    'Neutral' in the source). *)
Inductive sentiment : Type :=
| Positive
| Negative
| Neutral.

Definition sentiment_text (s : sentiment) : string :=
  match s with
  | Positive => "Positive"
  | Negative => "Negative"
  | Neutral => "Neutral"
  end.

(** ** SentimentAnalyzer *)

(** The literal [0.1] of the source: the binary64 value nearest to one
    tenth, written exactly. *)
Definition threshold : float := 0x1.999999999999ap-4%float.

(** Lines 88-93: the three-way split on the polarity. *)
Definition label_of_polarity (polarity : float) : sentiment :=
  if (threshold <? polarity)%float then Positive
  else if (polarity <? - threshold)%float then Negative
  else Neutral.

Section Analyzer.

(** [TextBlob(text).sentiment.polarity]: the external scorer.  It either
    yields a polarity or raises. *)
Variable textblob_polarity : string -> outcome float.

(** [SentimentAnalyzer.analyze_sentiment] (lines 82-93). *)
Definition analyze_sentiment (text : string) : outcome (sentiment * float) :=
  match textblob_polarity text with
  | Raise e => Raise e
  | Return polarity => Return (label_of_polarity polarity, polarity)
  end.

End Analyzer.

(** ** DatabaseManager *)

(** The SQLite file holds the two tables created by [setup_db]
    (lines 29-48).  Columns carry the types of the schema.

    [preferences]: [user_id INTEGER PRIMARY KEY] is the key, a signed
    64-bit integer, so the table is a finite map from the key to the other
    three columns and a key occurs in at most one row.  A row holds
    [enable_mood_checks] as the integer 1 or 0 (what the binding stores
    for [True] and [False], and what comes back), [check_interval], and
    [mood_threshold] or NULL.

    [sentiment_history]: rows in insertion order.  The [timestamp] column
    is filled by the engine from the wall clock and is read nowhere in the
    program; it is left out of the row. *)
Record history_row : Type := {
  hist_id : Z;
  hist_user_id : string;
  hist_message : string;
  hist_sentiment : sentiment;
  hist_polarity : float
}.

Record db : Type := {
  preferences : gmap Z (Z * Z * option float);
  sentiment_history : list history_row
}.

(** A fresh database file after [setup_db]. *)
Definition empty_db : db :=
  {| preferences := ∅; sentiment_history := [] |}.

(** A user id as the program has it: an integer, as the schema declares
    the column, or a text, as [on_pubmsg] takes from the sender. *)
Inductive user_key : Type :=
| IntKey (z : Z)
| TextKey (s : string).

(** The integers the binding can hand to SQLite: signed 64 bits.  Any other
    Python int makes [execute] raise [OverflowError] before the statement
    runs. *)
Definition in_int64 (z : Z) : bool :=
  (-9223372036854775808 <=? z) && (z <=? 9223372036854775807).

(** What a REAL column gives back for a bound float: NaN is stored as
    NULL, both zeros come back as [0.0], any other value as itself. *)
Definition real_column (m : float) : option float :=
  if is_nan m then None
  else if (m =? 0)%float then Some 0%float
  else Some m.

Section Preferences.

(** The engine's reading of a text as an integer (numeric affinity): the
    value of a text that is a well-formed number with an integral value,
    such as '42', ' 42' or '42.0'; nothing for any other text, such as a
    nick. *)
Variable text_as_integer : string -> option Z.

(** The rowid a user id stands for in the [user_id] column, if any. *)
Definition rowid_of_key (user_id : user_key) : option Z :=
  match user_id with
  | IntKey z => Some z
  | TextKey s =>
      match text_as_integer s with
      | Some z => if in_int64 z then Some z else None
      | None => None
      end
  end.

(** Binding [user_id] as a parameter. *)
Definition bind_user_key (user_id : user_key) : outcome user_key :=
  match user_id with
  | IntKey z => if in_int64 z then Return user_id else Raise "OverflowError"
  | TextKey _ => Return user_id
  end.

(** [get_user_preferences] (lines 50-57): [fetchone] gives the whole row
    [(user_id, enable_mood_checks, check_interval, mood_threshold)] with
    the integer key in [user_id], or [None] when no row has that key.  A
    text that is not a number equals no key. *)
Definition get_user_preferences (d : db) (user_id : user_key)
  : outcome (option (Z * Z * Z * option float)) :=
  match bind_user_key user_id with
  | Raise e => Raise e
  | Return _ =>
      match rowid_of_key user_id with
      | None => Return None
      | Some key =>
          match preferences d !! key with
          | Some (enable_mood_checks, check_interval, mood_threshold) =>
              Return (Some (key, enable_mood_checks, check_interval,
                            mood_threshold))
          | None => Return None
          end
      end
  end.

(** [set_user_preferences] (lines 59-67).  The four parameters are bound
    in order; then [INSERT OR REPLACE] needs an integer for the key
    ([IntegrityError], datatype mismatch, otherwise), removes the row
    holding the key, if any, and stores the new one.  The [def] has no
    [return].  A raise leaves the table as it was. *)
Definition set_user_preferences (d : db) (user_id : user_key)
    (enable_mood_checks : bool) (check_interval : Z) (mood_threshold : float)
  : outcome (db * pyval) :=
  match bind_user_key user_id with
  | Raise e => Raise e
  | Return _ =>
      if in_int64 check_interval then
        match rowid_of_key user_id with
        | None => Raise "IntegrityError"
        | Some key =>
            Return
              ({| preferences :=
                    <[key := (Z.b2z enable_mood_checks, check_interval,
                              real_column mood_threshold)]>
                      (preferences d);
                  sentiment_history := sentiment_history d |},
               PyNone)
        end
      else Raise "OverflowError"
  end.

End Preferences.

(** Largest value a rowid can take (signed 64 bits). *)
Definition max_rowid : Z := 9223372036854775807.

Definition history_ids (rows : list history_row) : list Z :=
  map hist_id rows.

(** Largest rowid in use, [None] for an empty table. *)
Fixpoint largest_rowid (ids : list Z) : option Z :=
  match ids with
  | [] => None
  | i :: rest =>
      match largest_rowid rest with
      | None => Some i
      | Some m => Some (Z.max i m)
      end
  end.

Section Store.

(** Once the largest rowid is [max_rowid] the engine probes rowids at
    random; the probe yields a candidate or gives up. *)
Variable random_rowid : list Z -> option Z.

(** The rowid SQLite gives to a row inserted without one into a table whose
    key is [id INTEGER PRIMARY KEY]: 1 in an empty table, otherwise one
    more than the largest in use; at [max_rowid], an unused positive
    candidate from the random probe, and failure when there is none. *)
Definition new_rowid (ids : list Z) : option Z :=
  match largest_rowid ids with
  | None => Some 1
  | Some m =>
      if m <? max_rowid then Some (m + 1)
      else
        match random_rowid ids with
        | Some r =>
            if (0 <? r) && (r <=? max_rowid) && negb (existsb (Z.eqb r) ids)
            then Some r else None
        | None => None
        end
  end.

(** [log_sentiment] (lines 69-77).  The [def] has no [return]: the caller
    gets [None].  A failed insert raises and leaves the table as it was. *)
Definition log_sentiment (d : db) (user_id message : string)
    (sentiment : sentiment) (polarity : float) : outcome (db * pyval) :=
  match new_rowid (history_ids (sentiment_history d)) with
  | None => Raise "OperationalError"
  | Some i =>
      Return
        ({| preferences := preferences d;
            sentiment_history :=
              sentiment_history d ++
              [ {| hist_id := i; hist_user_id := user_id;
                   hist_message := message; hist_sentiment := sentiment;
                   hist_polarity := polarity |} ] |},
         PyNone)
  end.

End Store.

(** ** MoodAwareAI *)

(** The object state: the database behind [db_manager] and the attribute
    [latest_message], which is [None] or the triple
    [(message, sentiment, polarity)]. *)
Record MoodAwareAI : Type := {
  db_manager : db;
  latest_message : option (string * sentiment * float)
}.

(** [__init__] (lines 98-102) over the contents [stored] of the database
    file; [setup_db] creates the tables only when they do not exist. *)
Definition MoodAwareAI_init (stored : db) : MoodAwareAI :=
  {| db_manager := stored; latest_message := None |}.

(** [get_latest_message] (lines 111-113). *)
Definition get_latest_message (ai : MoodAwareAI)
  : option (string * sentiment * float) :=
  latest_message ai.

(** [update_user_preferences] (lines 119-121): the call of
    [set_user_preferences]; an exception leaves the object as it was. *)
Definition update_user_preferences (text_as_integer : string -> option Z)
    (ai : MoodAwareAI) (user_id : user_key)
    (enable_mood_checks : bool) (check_interval : Z) (mood_threshold : float)
  : MoodAwareAI * outcome pyval :=
  match set_user_preferences text_as_integer (db_manager ai) user_id
          enable_mood_checks check_interval mood_threshold with
  | Raise e => (ai, Raise e)
  | Return (d, v) =>
      ({| db_manager := d; latest_message := latest_message ai |}, Return v)
  end.

Section Engine.

Variable textblob_polarity : string -> outcome float.
Variable random_rowid : list Z -> option Z.

(** [analyze_message] (lines 104-109): score, log, then overwrite
    [latest_message].  An exception leaves the object as it was when the
    exception was raised. *)
Definition analyze_message (ai : MoodAwareAI) (message user_id : string)
  : MoodAwareAI * outcome (sentiment * float) :=
  match analyze_sentiment textblob_polarity message with
  | Raise e => (ai, Raise e)
  | Return (sentiment, polarity) =>
      match log_sentiment random_rowid (db_manager ai) user_id message
              sentiment polarity with
      | Raise e => (ai, Raise e)
      | Return (d, _) =>
          ({| db_manager := d;
              latest_message := Some (message, sentiment, polarity) |},
           Return (sentiment, polarity))
      end
  end.

End Engine.

(** ** MoodCheckBot *)

(** The bot object: its channel, the [MoodAwareAI] it shares with the
    timer thread, the delays of the [threading.Timer]s started and not yet
    fired, and the [(target, text)] pairs the connection has accepted. *)
Record MoodCheckBot : Type := {
  channel : string;
  mood_ai : MoodAwareAI;
  timers : list Z;
  delivered : list (string * string)
}.

Definition with_mood_ai (ai : MoodAwareAI) (b : MoodCheckBot) : MoodCheckBot :=
  {| channel := channel b; mood_ai := ai;
     timers := timers b; delivered := delivered b |}.

Definition with_timers (ts : list Z) (b : MoodCheckBot) : MoodCheckBot :=
  {| channel := channel b; mood_ai := mood_ai b;
     timers := ts; delivered := delivered b |}.

Definition accept (target text : string) (b : MoodCheckBot) : MoodCheckBot :=
  {| channel := channel b; mood_ai := mood_ai b;
     timers := timers b; delivered := delivered b ++ [(target, text)] |}.

(** [schedule_periodic_mood_check] (lines 160-162):
    [threading.Timer(300, ...).start()]. *)
Definition schedule_periodic_mood_check (b : MoodCheckBot) : MoodCheckBot :=
  with_timers (timers b ++ [300]) b.

(** [__init__] (lines 126-137): the first timer is started at
    construction. *)
Definition MoodCheckBot_init (chan : string) (ai : MoodAwareAI)
  : MoodCheckBot :=
  schedule_periodic_mood_check
    {| channel := chan; mood_ai := ai; timers := []; delivered := [] |}.

(** [e.source.split('!')[0]]: the text before the first '!'. *)
Fixpoint nick_of (source : string) : string :=
  match source with
  | EmptyString => EmptyString
  | String c rest =>
      if Ascii.eqb c "!"%char then EmptyString else String c (nick_of rest)
  end.

(** The immediate reply of [on_pubmsg] (lines 153-158). *)
Definition reply_text (user : string) (s : sentiment) : string :=
  match s with
  | Positive => user ++ ", that's awesome! Keep it up!"
  | Negative => user ++ ", I'm here for you if you need anything."
  | Neutral => user ++ ", how can I help today?"
  end.

(** The periodic response (lines 171-176). *)
Definition periodic_text (message : string) (s : sentiment) : string :=
  match s with
  | Positive => "Great mood! Keep it up! (" ++ message ++ ")"
  | Negative => "Hang in there! We're here for you. (" ++ message ++ ")"
  | Neutral => "Neutral mood, feel free to talk to me! (" ++ message ++ ")"
  end.

Section Bot.

Variable textblob_polarity : string -> outcome float.
Variable random_rowid : list Z -> option Z.

(** [connection.privmsg(target, text)]: the transport either accepts the
    line or raises. *)
Variable privmsg : string -> string -> outcome unit.

(** The engine's reading of a text as an integer, as in
    [set_user_preferences]. *)
Variable text_as_integer : string -> option Z.

(** [on_pubmsg] (lines 145-158) for the message text [e.arguments[0]] and
    the sender [e.source]. *)
Definition on_pubmsg (b : MoodCheckBot) (message source : string)
  : MoodCheckBot * outcome unit :=
  let user := nick_of source in
  match analyze_message textblob_polarity random_rowid (mood_ai b)
          message user with
  | (ai, Raise e) => (with_mood_ai ai b, Raise e)
  | (ai, Return (sentiment, score)) =>
      let b1 := with_mood_ai ai b in
      let text := reply_text user sentiment in
      match privmsg (channel b1) text with
      | Raise e => (b1, Raise e)
      | Return _ => (accept (channel b1) text b1, Return tt)
      end
  end.

(** [check_and_respond_periodically] (lines 164-180).  [if latest_message:]
    is false for [None] and true for a triple, which is never empty.  An
    exception from [privmsg] leaves the method before line 180. *)
Definition check_and_respond_periodically (b : MoodCheckBot)
  : MoodCheckBot * outcome unit :=
  match get_latest_message (mood_ai b) with
  | Some (message, sentiment, score) =>
      let response := periodic_text message sentiment in
      match privmsg (channel b) response with
      | Raise e => (b, Raise e)
      | Return _ =>
          (schedule_periodic_mood_check (accept (channel b) response b),
           Return tt)
      end
  | None => (schedule_periodic_mood_check b, Return tt)
  end.

(** A started timer elapses: it leaves the pending ones and its thread
    runs the callback.  [None] when no timer is pending. *)
Definition timer_fires (b : MoodCheckBot)
  : option (MoodCheckBot * outcome unit) :=
  match timers b with
  | [] => None
  | _ :: rest => Some (check_and_respond_periodically (with_timers rest b))
  end.

(** What can happen to a running bot: a channel message arrives, the
    pending timer elapses, or one of the methods of [MoodAwareAI] is called
    directly. *)
Inductive event : Type :=
| PubMsg (message source : string)
| TimerFires
| AnalyzeMessage (message user_id : string)
| GetLatestMessage
| GetUserPreferences (user_id : user_key)
| UpdateUserPreferences (user_id : user_key) (enable_mood_checks : bool)
    (check_interval : Z) (mood_threshold : float).

(** The bot after an event; an exception ends the handler and the state
    stays as it was at the raise. *)
Definition handle (b : MoodCheckBot) (ev : event) : MoodCheckBot :=
  match ev with
  | PubMsg message source => fst (on_pubmsg b message source)
  | TimerFires =>
      match timer_fires b with
      | Some (b', _) => b'
      | None => b
      end
  | AnalyzeMessage message user_id =>
      with_mood_ai
        (fst (analyze_message textblob_polarity random_rowid (mood_ai b)
                message user_id)) b
  | GetLatestMessage => b
  | GetUserPreferences _ => b
  | UpdateUserPreferences u e c m =>
      with_mood_ai
        (fst (update_user_preferences text_as_integer (mood_ai b) u e c m)) b
  end.

(** The scheduler on its own: one step is one tick. *)
Inductive tick_step : MoodCheckBot -> MoodCheckBot -> Prop :=
| tick_step_fires (b b' : MoodCheckBot) (r : outcome unit) :
    timer_fires b = Some (b', r) -> tick_step b b'.

End Bot.

(** The bot after a sequence of events. *)
Definition run (scorer : string -> outcome float)
    (rnd : list Z -> option Z) (send : string -> string -> outcome unit)
    (conv : string -> option Z)
    (b : MoodCheckBot) (evs : list event) : MoodCheckBot :=
  fold_left (handle scorer rnd send conv) evs b.

(** The events that call [analyze_message]. *)
Definition is_analysis (ev : event) : bool :=
  match ev with
  | PubMsg _ _ | AnalyzeMessage _ _ => true
  | _ => false
  end.

(** A transport whose socket is not connected. *)
Definition not_connected (target text : string) : outcome unit :=
  Raise "ServerNotConnectedError".

(** A transport that accepts every line. *)
Definition connected (target text : string) : outcome unit :=
  Return tt.

(** The rows below [max_rowid]: the next rowid is the successor of the
    largest. *)
Definition unsaturated (rows : list history_row) : Prop :=
  forall r, In r rows -> hist_id r < max_rowid.

(** The bot [b] with another [preferences] table. *)
Definition with_preferences (prefs : gmap Z (Z * Z * option float))
    (b : MoodCheckBot) : MoodCheckBot :=
  with_mood_ai
    {| db_manager :=
         {| preferences := prefs;
            sentiment_history := sentiment_history (db_manager (mood_ai b)) |};
       latest_message := latest_message (mood_ai b) |} b.

(** ** The database file, [setup_db] and [main] *)

(** The file behind [db_path]: each of the two tables exists, with its
    rows, or does not exist yet. *)
Record db_file : Type := {
  preferences_table : option (gmap Z (Z * Z * option float));
  sentiment_history_table : option (list history_row)
}.

(** [setup_db] (lines 29-48): each [CREATE TABLE IF NOT EXISTS] makes an
    empty table when there is none and leaves an existing one alone. *)
Definition setup_db (f : db_file) : db_file :=
  {| preferences_table :=
       match preferences_table f with
       | Some t => Some t
       | None => Some ∅
       end;
     sentiment_history_table :=
       match sentiment_history_table f with
       | Some rows => Some rows
       | None => Some []
       end |}.

(** The two tables as the other methods of [DatabaseManager] see them in a
    file on which [setup_db] has run. *)
Definition tables (f : db_file) : db :=
  {| preferences :=
       match preferences_table f with Some t => t | None => ∅ end;
     sentiment_history :=
       match sentiment_history_table f with Some rows => rows | None => [] end
  |}.

(** The file holding the tables [d]. *)
Definition file_of (d : db) : db_file :=
  {| preferences_table := Some (preferences d);
     sentiment_history_table := Some (sentiment_history d) |}.

(** [MoodAwareAI()] (lines 98-102) on the file [f]: the file after
    [setup_db], and the new object. *)
Definition MoodAwareAI_open (f : db_file) : db_file * MoodAwareAI :=
  (setup_db f, MoodAwareAI_init (tables (setup_db f))).

(** [main] (lines 187-196): the engine over the database file and the bot
    for the channel #wetfish. *)
Definition main (f : db_file) : MoodCheckBot :=
  MoodCheckBot_init "#wetfish" (snd (MoodAwareAI_open f)).

(** ** Vocabulary of the further properties *)

(** Positive and Negative exchanged. *)
Definition mirror (s : sentiment) : sentiment :=
  match s with
  | Positive => Negative
  | Negative => Positive
  | Neutral => Neutral
  end.

(** The triple [latest_message] would hold for a row of the history. *)
Definition record_of_row (r : history_row) : string * sentiment * float :=
  (hist_message r, hist_sentiment r, hist_polarity r).

(** The row most recently appended. *)
Definition newest_row (rows : list history_row) : option history_row :=
  match rev rows with
  | [] => None
  | r :: _ => Some r
  end.

(** A row whose label is the one its polarity classifies to. *)
Definition row_consistent (r : history_row) : Prop :=
  hist_sentiment r = label_of_polarity (hist_polarity r).

(** The events that write the preferences table. *)
Definition is_preferences_update (ev : event) : bool :=
  match ev with
  | UpdateUserPreferences _ _ _ _ => true
  | _ => false
  end.

(** Whether the character '!' occurs in a string. *)
Fixpoint has_bang (s : string) : bool :=
  match s with
  | EmptyString => false
  | String c rest => Ascii.eqb c "!"%char || has_bang rest
  end.

(** The ids 1, 2, ..., n in this order. *)
Definition first_ids (n : nat) : list Z :=
  map Z.of_nat (seq 1 n).

(** ** Concrete environments for the examples *)

Definition digit_of (c : ascii) : option Z :=
  let n := nat_of_ascii c in
  if ((48 <=? n) && (n <=? 57))%nat then Some (Z.of_nat n - 48) else None.

Fixpoint decimal_value (s : string) (acc : Z) : option Z :=
  match s with
  | EmptyString => Some acc
  | String c rest =>
      match digit_of c with
      | Some v => decimal_value rest (10 * acc + v)
      | None => None
      end
  end.

(** A reading of texts as integers used in the examples: decimal digits
    with an optional minus sign, which the engine reads as that integer;
    a text with any other character, such as a nick, is not a number. *)
Definition plain_decimal (s : string) : option Z :=
  match s with
  | EmptyString => None
  | String c rest =>
      if Ascii.eqb c "-"%char then
        match rest with
        | EmptyString => None
        | _ => option_map Z.opp (decimal_value rest 0)
        end
      else decimal_value s 0
  end.

(** A database left by earlier runs: two history rows, with ids 3 and 7,
    and the preferences row of user 7. *)
Definition earlier_db : db :=
  {| preferences := {[ 7 := (1, 300, Some 0.5%float) ]};
     sentiment_history :=
       [ {| hist_id := 3; hist_user_id := "carol"; hist_message := "hello";
            hist_sentiment := Neutral; hist_polarity := 0%float |};
         {| hist_id := 7; hist_user_id := "dave"; hist_message := "so sad";
            hist_sentiment := Negative; hist_polarity := (-0.5)%float |} ] |}.

(** ** Facts about the binary64 comparison with the two thresholds *)

Lemma threshold_repr :
  Prim2SF threshold = S754_finite false 7205759403792794 (-56).
Proof. vm_compute. reflexivity. Qed.

Lemma neg_threshold_repr :
  Prim2SF (- threshold) = S754_finite true 7205759403792794 (-56).
Proof. vm_compute. reflexivity. Qed.

(** A value below [-0.1] is not above [0.1]: the order of the two tests in
    the source does not matter. *)
Lemma below_not_above (p : float) :
  (p <? - threshold)%float = true -> (threshold <? p)%float = false.
Proof.
  rewrite !ltb_spec, threshold_repr, neg_threshold_repr.
  destruct (Prim2SF p) as [[]|[]| |[] m e];
    unfold SFltb, SFcompare; congruence.
Qed.

(** C1. For every polarity [p] the scorer returns, the label is Positive
    when [p > 0.1], Negative when [p < -0.1] and Neutral otherwise; the
    polarity is handed back unchanged, and the two boundary values [0.1]
    and [-0.1] themselves are Neutral. *)
Theorem classify_thresholds :
  forall (scorer : string -> outcome float) (text : string) (p : float),
    scorer text = Return p ->
    exists l : sentiment,
      analyze_sentiment scorer text = Return (l, p) /\
      ((threshold <? p)%float = true -> l = Positive) /\
      ((p <? - threshold)%float = true -> l = Negative) /\
      ((threshold <? p)%float = false ->
       (p <? - threshold)%float = false -> l = Neutral) /\
      label_of_polarity threshold = Neutral /\
      label_of_polarity (- threshold) = Neutral.
Proof.
  intros scorer text p Hs.
  exists (label_of_polarity p).
  unfold analyze_sentiment. rewrite Hs.
  split; [reflexivity|].
  unfold label_of_polarity.
  repeat split.
  - intros ->. reflexivity.
  - intros Hlt. rewrite (below_not_above p Hlt), Hlt. reflexivity.
  - intros -> ->. reflexivity.
Qed.

Lemma classify_thresholds_witness :
  (fun _ : string => Return 0.5%float) "I love this!" = Return 0.5%float /\
  exists l : sentiment,
    analyze_sentiment (fun _ => Return 0.5%float) "I love this!"
      = Return (l, 0.5%float) /\
    l = Positive.
Proof.
  split; [reflexivity|].
  destruct (classify_thresholds (fun _ => Return 0.5%float) "I love this!"
              0.5%float eq_refl) as (l & Hl & Hpos & _).
  exists l. split; [exact Hl|]. apply Hpos. vm_compute. reflexivity.
Defined.

(** ** The history table: rowids *)

Lemma largest_rowid_bounds (ids : list Z) (m : Z) :
  largest_rowid ids = Some m -> forall i, In i ids -> i <= m.
Proof.
  revert m. induction ids as [|j rest IH]; intros m Hm i Hi.
  - destruct Hi.
  - simpl in Hm. destruct (largest_rowid rest) as [m'|] eqn:Hrest.
    + injection Hm as <-. destruct Hi as [->|Hi].
      * lia.
      * specialize (IH m' eq_refl i Hi). lia.
    + injection Hm as <-. destruct Hi as [->|Hi]; [lia|].
      destruct rest; [destruct Hi|].
      simpl in Hrest. destruct (largest_rowid rest); discriminate.
Qed.

Lemma largest_rowid_member (ids : list Z) (m : Z) :
  largest_rowid ids = Some m -> In m ids.
Proof.
  revert m. induction ids as [|j rest IH]; intros m Hm; [discriminate|].
  simpl in Hm. destruct (largest_rowid rest) as [m'|].
  - injection Hm as <-.
    destruct (Z.max_spec j m') as [[_ ->]|[_ ->]].
    + right. apply IH. reflexivity.
    + left. reflexivity.
  - injection Hm as <-. left. reflexivity.
Qed.

Lemma largest_rowid_empty (ids : list Z) :
  largest_rowid ids = None -> ids = [].
Proof.
  destruct ids as [|j rest]; [reflexivity|].
  simpl. destruct (largest_rowid rest); discriminate.
Qed.

(** Below the cap the new rowid exists and exceeds every rowid in use. *)
Lemma new_rowid_below_cap (rnd : list Z -> option Z)
    (rows : list history_row) :
  unsaturated rows ->
  exists i, new_rowid rnd (history_ids rows) = Some i /\
            forall r, In r rows -> hist_id r < i.
Proof.
  intros Hcap. unfold new_rowid.
  destruct (largest_rowid (history_ids rows)) as [m|] eqn:Hm.
  - assert (Hin : In m (history_ids rows)) by (apply largest_rowid_member; exact Hm).
    apply in_map_iff in Hin. destruct Hin as (r0 & <- & Hr0).
    pose proof (Hcap r0 Hr0) as Hlt.
    apply Z.ltb_lt in Hlt. rewrite Hlt.
    exists (hist_id r0 + 1). split; [reflexivity|].
    intros r Hr.
    assert (hist_id r <= hist_id r0).
    { apply (largest_rowid_bounds _ _ Hm). apply in_map. exact Hr. }
    lia.
  - apply largest_rowid_empty in Hm.
    exists 1. split; [reflexivity|].
    intros r Hr. destruct rows; [destruct Hr|discriminate].
Qed.

(** A rowid handed out by the store is used by no row of the table, below
    the cap and at the cap alike. *)
Lemma new_rowid_unused (rnd : list Z -> option Z) (ids : list Z) (i : Z) :
  new_rowid rnd ids = Some i -> ~ In i ids.
Proof.
  unfold new_rowid.
  destruct (largest_rowid ids) as [m|] eqn:Hm.
  - destruct (m <? max_rowid).
    + intros Hi Hin. injection Hi as <-.
      pose proof (largest_rowid_bounds ids m Hm _ Hin). lia.
    + destruct (rnd ids) as [r|]; [|discriminate].
      destruct ((0 <? r) && (r <=? max_rowid)
                && negb (existsb (Z.eqb r) ids)) eqn:Hc; [|discriminate].
      intros Hi Hin. injection Hi as <-.
      apply andb_prop in Hc. destruct Hc as [_ Hc].
      apply negb_true_iff in Hc.
      assert (Hex : existsb (Z.eqb r) ids = true).
      { apply existsb_exists. exists r. split; [exact Hin|apply Z.eqb_refl]. }
      rewrite Hex in Hc. discriminate.
  - intros _ Hin. apply largest_rowid_empty in Hm. subst ids. destruct Hin.
Qed.

(** ** The engine: shape of every outcome of [analyze_message] *)

Lemma analyze_message_outcomes (scorer : string -> outcome float)
    (rnd : list Z -> option Z) (ai : MoodAwareAI) (m u : string) :
  (exists e, analyze_message scorer rnd ai m u = (ai, Raise e)) \/
  (exists p d,
      scorer m = Return p /\
      log_sentiment rnd (db_manager ai) u m (label_of_polarity p) p
        = Return (d, PyNone) /\
      analyze_message scorer rnd ai m u
        = ({| db_manager := d;
              latest_message := Some (m, label_of_polarity p, p) |},
           Return (label_of_polarity p, p))).
Proof.
  unfold analyze_message, analyze_sentiment.
  destruct (scorer m) as [p|e]; [|left; eauto].
  unfold log_sentiment.
  destruct (new_rowid rnd _) as [i|]; [|left; eauto].
  right. exists p. eexists. repeat split.
Qed.

(** With a polarity from the scorer and a table below the cap, the call
    returns. *)
Lemma analyze_message_returns (scorer : string -> outcome float)
    (rnd : list Z -> option Z) (ai : MoodAwareAI) (m u : string) (p : float) :
  scorer m = Return p ->
  unsaturated (sentiment_history (db_manager ai)) ->
  snd (analyze_message scorer rnd ai m u) = Return (label_of_polarity p, p).
Proof.
  intros Hs Hcap.
  destruct (new_rowid_below_cap rnd _ Hcap) as (i & Hi & _).
  unfold analyze_message, analyze_sentiment, log_sentiment.
  rewrite Hs, Hi. reflexivity.
Qed.

(** A returned classification is the one left in the slot. *)
Lemma analyze_message_sets_latest (scorer : string -> outcome float)
    (rnd : list Z -> option Z) (ai : MoodAwareAI) (m u : string)
    (l : sentiment) (p : float) :
  snd (analyze_message scorer rnd ai m u) = Return (l, p) ->
  get_latest_message (fst (analyze_message scorer rnd ai m u))
  = Some (m, l, p).
Proof.
  intros Hret.
  destruct (analyze_message_outcomes scorer rnd ai m u)
    as [(e & He)|(q & d & _ & _ & Hq)].
  - rewrite He in Hret. discriminate.
  - rewrite Hq in Hret |- *. simpl in Hret |- *.
    injection Hret as <- <-. reflexivity.
Qed.

(** ** Engine: analyze then latest *)

(** C2. Whenever [analyze_message] returns [(label, polarity)], a call of
    [get_latest_message] on the object it leaves behind gives the record
    [(message, label, polarity)]; and the call does return once the scorer
    yields a polarity and the history table is below the rowid cap. *)
Theorem latest_after_analyze :
  forall (scorer : string -> outcome float) (rnd : list Z -> option Z)
         (ai : MoodAwareAI) (message user_id : string),
    (forall l p,
        snd (analyze_message scorer rnd ai message user_id) = Return (l, p) ->
        get_latest_message
          (fst (analyze_message scorer rnd ai message user_id))
        = Some (message, l, p)) /\
    (forall p,
        scorer message = Return p ->
        unsaturated (sentiment_history (db_manager ai)) ->
        exists l,
          snd (analyze_message scorer rnd ai message user_id)
          = Return (l, p)).
Proof.
  intros scorer rnd ai message user_id. split.
  - intros l p Hret. apply analyze_message_sets_latest. exact Hret.
  - intros p Hs Hcap. exists (label_of_polarity p).
    apply analyze_message_returns; assumption.
Qed.

Lemma latest_after_analyze_witness :
  let scorer := fun _ : string => Return 0.5%float in
  let rnd := fun _ : list Z => @None Z in
  let ai := MoodAwareAI_init empty_db in
  snd (analyze_message scorer rnd ai "I love this!" "alice")
    = Return (Positive, 0.5%float) /\
  get_latest_message (fst (analyze_message scorer rnd ai "I love this!" "alice"))
    = Some ("I love this!", Positive, 0.5%float).
Proof.
  intros scorer rnd ai.
  assert (H : snd (analyze_message scorer rnd ai "I love this!" "alice")
              = Return (Positive, 0.5%float)) by (vm_compute; reflexivity).
  split; [exact H|].
  exact (proj1 (latest_after_analyze scorer rnd ai "I love this!" "alice")
           Positive 0.5%float H).
Defined.

(** ** HistoryLog: what an append returns and which id it assigns *)

(** C3, as it holds on the code.  A call of [log_sentiment] that returns,
    returns [None], never an id, and has appended exactly one row carrying
    the given columns, under an id no other row of the table has.  While
    every rowid in the table is below [max_rowid], the call does return,
    and the id the store gives the new row is strictly greater than the id
    of every row already in the table. *)
Theorem log_sentiment_assigns_fresh_id :
  forall (rnd : list Z -> option Z) (d : db) (user_id message : string)
         (s : sentiment) (p : float),
    (forall d' v,
        log_sentiment rnd d user_id message s p = Return (d', v) ->
        v = PyNone /\
        exists i : Z,
          d' = {| preferences := preferences d;
                  sentiment_history :=
                    sentiment_history d ++
                    [ {| hist_id := i; hist_user_id := user_id;
                         hist_message := message; hist_sentiment := s;
                         hist_polarity := p |} ] |} /\
          ~ In i (history_ids (sentiment_history d))) /\
    (unsaturated (sentiment_history d) ->
     exists i : Z,
       log_sentiment rnd d user_id message s p
       = Return
           ({| preferences := preferences d;
               sentiment_history :=
                 sentiment_history d ++
                 [ {| hist_id := i; hist_user_id := user_id;
                      hist_message := message; hist_sentiment := s;
                      hist_polarity := p |} ] |},
            PyNone) /\
       (forall r, In r (sentiment_history d) -> hist_id r < i) /\
       ~ In i (history_ids (sentiment_history d))).
Proof.
  intros rnd d user_id message s p. split.
  - intros d' v Hret. unfold log_sentiment in Hret.
    destruct (new_rowid rnd (history_ids (sentiment_history d)))
      as [i|] eqn:Hi; [|discriminate].
    injection Hret as <- <-. split; [reflexivity|].
    exists i. split; [reflexivity|].
    exact (new_rowid_unused rnd _ _ Hi).
  - intros Hcap.
    destruct (new_rowid_below_cap rnd _ Hcap) as (i & Hi & Hgt).
    exists i. unfold log_sentiment. rewrite Hi.
    split; [reflexivity|]. split; [exact Hgt|].
    intros Hin. apply in_map_iff in Hin. destruct Hin as (r & Hr & Hin).
    specialize (Hgt r Hin). lia.
Qed.

Lemma log_sentiment_assigns_fresh_id_witness :
  unsaturated (sentiment_history earlier_db) /\
  history_ids (sentiment_history earlier_db) = [3; 7] /\
  exists i : Z,
    log_sentiment (fun _ => None) earlier_db "alice" "I love this!"
      Positive 0.5%float
    = Return
        ({| preferences := preferences earlier_db;
            sentiment_history :=
              sentiment_history earlier_db ++
              [ {| hist_id := i; hist_user_id := "alice";
                   hist_message := "I love this!";
                   hist_sentiment := Positive;
                   hist_polarity := 0.5%float |} ] |},
         PyNone) /\
    (forall r, In r (sentiment_history earlier_db) -> hist_id r < i) /\
    ~ In i (history_ids (sentiment_history earlier_db)) /\
    i = 8.
Proof.
  assert (Hcap : unsaturated (sentiment_history earlier_db)).
  { intros r [<-|[<-|[]]]; reflexivity. }
  split; [exact Hcap|]. split; [reflexivity|].
  destruct (proj2 (log_sentiment_assigns_fresh_id (fun _ => None) earlier_db
                     "alice" "I love this!" Positive 0.5%float) Hcap)
    as (i & Hlog & Hgt & Hfresh).
  exists i. split; [exact Hlog|]. split; [exact Hgt|].
  split; [exact Hfresh|].
  unfold log_sentiment in Hlog. simpl in Hlog.
  injection Hlog as Hid. rewrite <- Hid. reflexivity.
Defined.

(** On a table holding the ids 3 and 7 the append stores its row under
    id 8, and what the call returns is [None], not that id. *)
Lemma log_sentiment_returns_none :
  exists d1 : db,
    log_sentiment (fun _ => None) earlier_db "alice" "I love this!"
      Positive 0.5%float = Return (d1, PyNone) /\
    history_ids (sentiment_history d1) = [3; 7; 8] /\
    PyNone <> PyInt 8.
Proof.
  eexists. split; [vm_compute; reflexivity|].
  split; [vm_compute; reflexivity|discriminate].
Qed.

(** ** PreferenceStore: round trip *)

Lemma in_int64_bind (z : Z) :
  in_int64 z = true -> bind_user_key (IntKey z) = Return (IntKey z).
Proof. intros H. unfold bind_user_key. rewrite H. reflexivity. Qed.

(** A write with an integer key and a check interval of 64 bits returns
    and stores the row under that key. *)
Lemma set_user_preferences_returns (conv : string -> option Z) (d : db)
    (u : Z) (e : bool) (c : Z) (m : float) :
  in_int64 u = true ->
  in_int64 c = true ->
  set_user_preferences conv d (IntKey u) e c m
  = Return ({| preferences :=
                 <[u := (Z.b2z e, c, real_column m)]> (preferences d);
               sentiment_history := sentiment_history d |}, PyNone).
Proof.
  intros Hu Hc. unfold set_user_preferences.
  rewrite (in_int64_bind u Hu), Hc. reflexivity.
Qed.

(** What a write does to the engine, whatever its outcome: the history
    table and the slot are not touched. *)
Lemma set_user_preferences_history (conv : string -> option Z) (d d' : db)
    (k : user_key) (e : bool) (c : Z) (m : float) (v : pyval) :
  set_user_preferences conv d k e c m = Return (d', v) ->
  sentiment_history d' = sentiment_history d.
Proof.
  unfold set_user_preferences.
  destruct (bind_user_key k); [|discriminate].
  destruct (in_int64 c); [|discriminate].
  destruct (rowid_of_key conv k); [|discriminate].
  intros H. injection H as <- _. reflexivity.
Qed.

Lemma update_user_preferences_keeps (conv : string -> option Z)
    (ai : MoodAwareAI) (k : user_key) (e : bool) (c : Z) (m : float) :
  sentiment_history
    (db_manager (fst (update_user_preferences conv ai k e c m)))
  = sentiment_history (db_manager ai) /\
  latest_message (fst (update_user_preferences conv ai k e c m))
  = latest_message ai.
Proof.
  unfold update_user_preferences.
  destruct (set_user_preferences conv (db_manager ai) k e c m)
    as [[d v]|x] eqn:Hset; simpl; [|split; reflexivity].
  split; [|reflexivity].
  exact (set_user_preferences_history conv _ _ _ _ _ _ _ Hset).
Qed.





(** ** Engine: a failing scorer *)

(** C5, as it holds on the code.  When the scorer raises, the exception
    reaches the caller of [analyze_message] as it was raised (same class,
    nothing wraps it), and the object is unchanged: no row is added to the
    history table and [latest_message] keeps its value. *)
Theorem scorer_failure_propagates :
  forall (scorer : string -> outcome float) (rnd : list Z -> option Z)
         (ai : MoodAwareAI) (message user_id : string) (e : exn),
    scorer message = Raise e ->
    analyze_message scorer rnd ai message user_id = (ai, Raise e) /\
    sentiment_history
      (db_manager (fst (analyze_message scorer rnd ai message user_id)))
    = sentiment_history (db_manager ai) /\
    get_latest_message (fst (analyze_message scorer rnd ai message user_id))
    = get_latest_message ai.
Proof.
  intros scorer rnd ai message user_id e Hs.
  assert (H : analyze_message scorer rnd ai message user_id = (ai, Raise e)).
  { unfold analyze_message, analyze_sentiment. rewrite Hs. reflexivity. }
  rewrite H. repeat split.
Qed.

Lemma scorer_failure_propagates_witness :
  let scorer := fun _ : string => @Raise float "TypeError" in
  let rnd := fun _ : list Z => @None Z in
  let ai := MoodAwareAI_init empty_db in
  scorer "I love this!" = Raise "TypeError" /\
  analyze_message scorer rnd ai "I love this!" "alice"
  = (ai, Raise "TypeError").
Proof.
  intros scorer rnd ai. split; [reflexivity|].
  exact (proj1 (scorer_failure_propagates scorer rnd ai "I love this!"
                  "alice" "TypeError" eq_refl)).
Defined.

(** A scorer raising [TypeError] surfaces as [TypeError]: no
    [ClassificationError] is produced. *)
Lemma scorer_failure_is_not_wrapped :
  ~ (forall (scorer : string -> outcome float) (rnd : list Z -> option Z)
            (ai : MoodAwareAI) (message user_id : string) (e : exn),
        scorer message = Raise e ->
        snd (analyze_message scorer rnd ai message user_id)
        = Raise "ClassificationError").
Proof.
  intros H.
  specialize (H (fun _ => Raise "TypeError") (fun _ => None)
                (MoodAwareAI_init empty_db) "I love this!" "alice"
                "TypeError" eq_refl).
  vm_compute in H. discriminate H.
Qed.

(** ** The bot: what each handler touches *)

Lemma check_outcomes (send : string -> string -> outcome unit)
    (b : MoodCheckBot) :
  (get_latest_message (mood_ai b) = None /\
   check_and_respond_periodically send b
   = (schedule_periodic_mood_check b, Return tt)) \/
  (exists m s p,
      get_latest_message (mood_ai b) = Some (m, s, p) /\
      send (channel b) (periodic_text m s) = Return tt /\
      check_and_respond_periodically send b
      = (schedule_periodic_mood_check
           (accept (channel b) (periodic_text m s) b), Return tt)) \/
  (exists m s p e,
      get_latest_message (mood_ai b) = Some (m, s, p) /\
      send (channel b) (periodic_text m s) = Raise e /\
      check_and_respond_periodically send b = (b, Raise e)).
Proof.
  unfold check_and_respond_periodically.
  destruct (get_latest_message (mood_ai b)) as [[[m s] p]|] eqn:Hl.
  - destruct (send (channel b) (periodic_text m s)) as [[]|e] eqn:Hs.
    + right. left. exists m, s, p. repeat split. exact Hs.
    + right. right. exists m, s, p, e. repeat split. exact Hs.
  - left. split; reflexivity.
Qed.

Lemma check_keeps_mood_ai (send : string -> string -> outcome unit)
    (b : MoodCheckBot) :
  mood_ai (fst (check_and_respond_periodically send b)) = mood_ai b.
Proof.
  destruct (check_outcomes send b)
    as [[_ ->]|[(m & s & p & _ & _ & ->)|(m & s & p & e & _ & _ & ->)]];
    reflexivity.
Qed.

Lemma on_pubmsg_mood_ai (scorer : string -> outcome float)
    (rnd : list Z -> option Z) (send : string -> string -> outcome unit)
    (b : MoodCheckBot) (m src : string) :
  mood_ai (fst (on_pubmsg scorer rnd send b m src))
  = fst (analyze_message scorer rnd (mood_ai b) m (nick_of src)) /\
  timers (fst (on_pubmsg scorer rnd send b m src)) = timers b.
Proof.
  unfold on_pubmsg.
  destruct (analyze_message scorer rnd (mood_ai b) m (nick_of src))
    as [ai [[s p]|e]]; simpl.
  - destruct (send (channel b) (reply_text (nick_of src) s)) as [[]|e];
      split; reflexivity.
  - split; reflexivity.
Qed.

(** [analyze_message] leaves the slot alone or fills it. *)
Lemma analyze_message_slot (scorer : string -> outcome float)
    (rnd : list Z -> option Z) (ai : MoodAwareAI) (m u : string) :
  get_latest_message (fst (analyze_message scorer rnd ai m u))
  = get_latest_message ai \/
  exists rec,
    get_latest_message (fst (analyze_message scorer rnd ai m u)) = Some rec.
Proof.
  destruct (analyze_message_outcomes scorer rnd ai m u)
    as [(e & ->)|(p & d & _ & _ & ->)].
  - left. reflexivity.
  - right. eexists. reflexivity.
Qed.

Lemma handle_slot (scorer : string -> outcome float)
    (rnd : list Z -> option Z) (send : string -> string -> outcome unit)
    (conv : string -> option Z)
    (b : MoodCheckBot) (ev : event) :
  get_latest_message (mood_ai (handle scorer rnd send conv b ev))
  = get_latest_message (mood_ai b) \/
  exists rec,
    get_latest_message (mood_ai (handle scorer rnd send conv b ev)) = Some rec.
Proof.
  destruct ev as [m src| |m u| |u|u e c t]; simpl.
  - rewrite (proj1 (on_pubmsg_mood_ai scorer rnd send b m src)).
    apply analyze_message_slot.
  - unfold timer_fires. destruct (timers b) as [|d rest]; [left; reflexivity|].
    pose proof (check_keeps_mood_ai send (with_timers rest b)) as H.
    destruct (check_and_respond_periodically send (with_timers rest b))
      as [b' r]. simpl in H. rewrite H. left. reflexivity.
  - apply analyze_message_slot.
  - left. reflexivity.
  - left. reflexivity.
  - left.
    exact (proj2 (update_user_preferences_keeps conv (mood_ai b) u e c t)).
Qed.

Lemma handle_timers (scorer : string -> outcome float)
    (rnd : list Z -> option Z) (send : string -> string -> outcome unit)
    (conv : string -> option Z)
    (b : MoodCheckBot) (ev : event) :
  Forall (eq 300) (timers b) ->
  Forall (eq 300) (timers (handle scorer rnd send conv b ev)).
Proof.
  intros Hb.
  destruct ev as [m src| |m u| |u|u e c t]; simpl; try exact Hb.
  - rewrite (proj2 (on_pubmsg_mood_ai scorer rnd send b m src)). exact Hb.
  - unfold timer_fires. destruct (timers b) as [|d rest] eqn:Ht.
    + rewrite Ht. exact Hb.
    + assert (Hrest : Forall (eq 300) rest)
        by (inversion Hb; assumption).
      destruct (check_outcomes send (with_timers rest b))
        as [[_ ->]|[(m & s & p & _ & _ & ->)|(m & s & p & e & _ & _ & ->)]];
        simpl.
      * apply Forall_app. split; [exact Hrest|]. constructor; [reflexivity|constructor].
      * apply Forall_app. split; [exact Hrest|]. constructor; [reflexivity|constructor].
      * exact Hrest.
Qed.

Lemma handle_without_analysis (scorer : string -> outcome float)
    (rnd : list Z -> option Z) (send : string -> string -> outcome unit)
    (conv : string -> option Z)
    (b : MoodCheckBot) (ev : event) :
  is_analysis ev = false ->
  get_latest_message (mood_ai (handle scorer rnd send conv b ev))
  = get_latest_message (mood_ai b).
Proof.
  destruct ev as [m src| |m u| |u|u e c t]; simpl;
    try discriminate; intros _; try reflexivity.
  - unfold timer_fires. destruct (timers b) as [|d rest]; [reflexivity|].
    pose proof (check_keeps_mood_ai send (with_timers rest b)) as H.
    destruct (check_and_respond_periodically send (with_timers rest b))
      as [b' r].
    simpl in H. rewrite H. reflexivity.
  - exact (proj2 (update_user_preferences_keeps conv (mood_ai b) u e c t)).
Qed.

Lemma run_slot_filled (scorer : string -> outcome float)
    (rnd : list Z -> option Z) (send : string -> string -> outcome unit)
    (conv : string -> option Z)
    (evs : list event) :
  forall b,
    get_latest_message (mood_ai b) <> None ->
    get_latest_message (mood_ai (run scorer rnd send conv b evs)) <> None.
Proof.
  induction evs as [|ev evs IH]; intros b Hb; [exact Hb|].
  simpl. apply IH.
  destruct (handle_slot scorer rnd send conv b ev) as [->|[rec ->]];
    [exact Hb|discriminate].
Qed.

(** ** Scheduler: rescheduling after a tick *)

(** C6, as it holds on the code.  A tick that sends nothing (empty slot)
    or whose delivery is accepted schedules the next tick, with delay 300.
    A tick whose delivery raises ends with that exception before the
    rescheduling call: the pending timers are those left when the tick
    began, and no new one is added. *)
Theorem tick_reschedules_unless_delivery_raises :
  forall (send : string -> string -> outcome unit) (b : MoodCheckBot)
         (d : Z) (rest : list Z),
    timers b = d :: rest ->
    (get_latest_message (mood_ai b) = None ->
     exists b',
       timer_fires send b = Some (b', Return tt) /\
       timers b' = (rest ++ [300])%list /\
       delivered b' = delivered b) /\
    (forall m s p,
        get_latest_message (mood_ai b) = Some (m, s, p) ->
        send (channel b) (periodic_text m s) = Return tt ->
        exists b',
          timer_fires send b = Some (b', Return tt) /\
          timers b' = (rest ++ [300])%list /\
          delivered b' = (delivered b ++ [(channel b, periodic_text m s)])%list) /\
    (forall m s p e,
        get_latest_message (mood_ai b) = Some (m, s, p) ->
        send (channel b) (periodic_text m s) = Raise e ->
        timer_fires send b = Some (with_timers rest b, Raise e) /\
        timers (with_timers rest b) = rest).
Proof.
  intros send b d rest Ht.
  unfold timer_fires, check_and_respond_periodically. rewrite Ht. simpl.
  split; [|split].
  - intros ->. eexists. repeat split.
  - intros m s p -> ->. eexists. repeat split.
  - intros m s p e -> ->. split; reflexivity.
Qed.

Lemma tick_reschedules_unless_delivery_raises_witness :
  let b := MoodCheckBot_init "#wetfish" (MoodAwareAI_init empty_db) in
  timers b = [300] /\
  get_latest_message (mood_ai b) = None /\
  exists b',
    timer_fires connected b = Some (b', Return tt) /\
    timers b' = ([] ++ [300])%list /\
    delivered b' = delivered b.
Proof.
  intros b.
  split; [reflexivity|]. split; [reflexivity|].
  exact (proj1 (tick_reschedules_unless_delivery_raises connected b 300 []
                  eq_refl) eq_refl).
Defined.

(** With a transport that is not connected, the bot that has classified
    one message fires its timer once and is left without any pending
    timer: no further tick can happen. *)
Lemma delivery_failure_ends_the_ticks :
  let scorer := fun _ : string => Return 0.5%float in
  let rnd := fun _ : list Z => @None Z in
  let b :=
    run scorer rnd not_connected plain_decimal
      (MoodCheckBot_init "#wetfish" (MoodAwareAI_init empty_db))
      [PubMsg "I love this!" "alice!alice@example.org"] in
  exists b',
    timers b = [300] /\
    timer_fires not_connected b
    = Some (b', Raise "ServerNotConnectedError") /\
    timers b' = [] /\
    timer_fires not_connected b' = None /\
    (forall b'', ~ tick_step not_connected b' b'').
Proof.
  intros scorer rnd b. eexists.
  split; [vm_compute; reflexivity|].
  split; [vm_compute; reflexivity|].
  split; [reflexivity|].
  split; [reflexivity|].
  intros b'' Hstep. inversion Hstep as [x y r Hf]. subst.
  vm_compute in Hf. discriminate Hf.
Qed.

(** ** MoodState before the first message *)

(** C7. A freshly constructed engine has an empty slot, and the slot stays
    empty through any events that do not call [analyze_message]; a tick on
    a bot whose slot is empty hands nothing to the transport (the accepted
    lines are unchanged and the outcome does not depend on the transport)
    and reschedules. *)
Theorem nothing_sent_before_first_analyze :
  forall (scorer : string -> outcome float) (rnd : list Z -> option Z)
         (send : string -> string -> outcome unit)
         (conv : string -> option Z) (chan : string)
         (stored : db),
    get_latest_message (MoodAwareAI_init stored) = None /\
    (forall evs,
        forallb (fun ev => negb (is_analysis ev)) evs = true ->
        get_latest_message
          (mood_ai (run scorer rnd send conv
                      (MoodCheckBot_init chan (MoodAwareAI_init stored)) evs))
        = None) /\
    (forall b,
        get_latest_message (mood_ai b) = None ->
        check_and_respond_periodically send b
        = (schedule_periodic_mood_check b, Return tt) /\
        delivered (fst (check_and_respond_periodically send b))
        = delivered b /\
        forall send',
          check_and_respond_periodically send' b
          = check_and_respond_periodically send b).
Proof.
  intros scorer rnd send conv chan stored.
  split; [reflexivity|]. split.
  - intros evs.
    assert (Hgen : forall b,
               get_latest_message (mood_ai b) = None ->
               forallb (fun ev => negb (is_analysis ev)) evs = true ->
               get_latest_message (mood_ai (run scorer rnd send conv b evs))
               = None).
    { induction evs as [|ev evs IH]; intros b Hb Hall; [exact Hb|].
      simpl in Hall. apply andb_prop in Hall. destruct Hall as [Hev Hall].
      simpl. apply IH; [|exact Hall].
      rewrite handle_without_analysis; [exact Hb|].
      destruct (is_analysis ev); [discriminate|reflexivity]. }
    apply Hgen. reflexivity.
  - intros b Hb. unfold check_and_respond_periodically. rewrite Hb.
    repeat split.
Qed.

Lemma nothing_sent_before_first_analyze_witness :
  let b := MoodCheckBot_init "#wetfish" (MoodAwareAI_init empty_db) in
  get_latest_message (mood_ai b) = None /\
  check_and_respond_periodically not_connected b
  = (schedule_periodic_mood_check b, Return tt).
Proof.
  intros b. split; [reflexivity|].
  exact (proj1 (proj2 (proj2 (nothing_sent_before_first_analyze
                                (fun _ => Return 0.5%float) (fun _ => None)
                                not_connected plain_decimal "#wetfish" empty_db))
                  b eq_refl)).
Defined.

(** ** MoodState is one slot for all users *)

(** C8. After [analyze_message] has returned for one user and then for
    another, [get_latest_message] gives the record of the second call,
    whoever the users are: the slot holds no user and is overwritten by
    every classified message.  The row logged for the first call is still
    in the history table, under the first user. *)
Theorem latest_is_one_global_slot :
  forall (scorer : string -> outcome float) (rnd : list Z -> option Z)
         (ai ai1 ai2 : MoodAwareAI) (m1 u1 m2 u2 : string)
         (l1 l2 : sentiment) (p1 p2 : float),
    analyze_message scorer rnd ai m1 u1 = (ai1, Return (l1, p1)) ->
    analyze_message scorer rnd ai1 m2 u2 = (ai2, Return (l2, p2)) ->
    get_latest_message ai1 = Some (m1, l1, p1) /\
    get_latest_message ai2 = Some (m2, l2, p2) /\
    exists i,
      In {| hist_id := i; hist_user_id := u1; hist_message := m1;
            hist_sentiment := l1; hist_polarity := p1 |}
         (sentiment_history (db_manager ai2)).
Proof.
  intros scorer rnd ai ai1 ai2 m1 u1 m2 u2 l1 l2 p1 p2 H1 H2.
  destruct (analyze_message_outcomes scorer rnd ai m1 u1)
    as [(e & He)|(q1 & d1 & _ & Hlog1 & Hq1)];
    [rewrite He in H1; discriminate|].
  destruct (analyze_message_outcomes scorer rnd ai1 m2 u2)
    as [(e & He)|(q2 & d2 & _ & Hlog2 & Hq2)];
    [rewrite He in H2; discriminate|].
  rewrite Hq1 in H1. injection H1 as <- <- <-.
  rewrite Hq2 in H2. injection H2 as <- <- <-.
  split; [reflexivity|]. split; [reflexivity|].
  unfold log_sentiment in Hlog1, Hlog2.
  destruct (new_rowid rnd (history_ids (sentiment_history (db_manager ai))))
    as [i|]; [|discriminate].
  injection Hlog1 as <-.
  simpl in Hlog2.
  destruct (new_rowid rnd _) as [j|]; [|discriminate].
  injection Hlog2 as <-.
  exists i. simpl. apply in_or_app. left. apply in_or_app. right.
  left. reflexivity.
Qed.

Lemma latest_is_one_global_slot_witness :
  let scorer := fun m : string =>
    if String.eqb m "I love this!" then Return 0.5%float
    else Return (-0.5)%float in
  let rnd := fun _ : list Z => @None Z in
  let ai := MoodAwareAI_init empty_db in
  let ai1 := fst (analyze_message scorer rnd ai "I love this!" "alice") in
  let ai2 := fst (analyze_message scorer rnd ai1 "I hate this" "bob") in
  get_latest_message ai1 = Some ("I love this!", Positive, 0.5%float) /\
  get_latest_message ai2 = Some ("I hate this", Negative, (-0.5)%float) /\
  exists i,
    In {| hist_id := i; hist_user_id := "alice";
          hist_message := "I love this!"; hist_sentiment := Positive;
          hist_polarity := 0.5%float |}
       (sentiment_history (db_manager ai2)).
Proof.
  intros scorer rnd ai ai1 ai2.
  apply (latest_is_one_global_slot scorer rnd ai ai1 ai2
           "I love this!" "alice" "I hate this" "bob").
  - vm_compute. reflexivity.
  - vm_compute. reflexivity.
Defined.

(** ** Scheduler: one fixed period *)

(** The tick on a bot with another preferences table. *)
Lemma check_ignores_preferences (send : string -> string -> outcome unit)
    (prefs : gmap Z (Z * Z * option float)) (b : MoodCheckBot) :
  check_and_respond_periodically send (with_preferences prefs b)
  = (with_preferences prefs (fst (check_and_respond_periodically send b)),
     snd (check_and_respond_periodically send b)).
Proof.
  unfold check_and_respond_periodically, with_preferences,
    get_latest_message. simpl.
  destruct (latest_message (mood_ai b)) as [[[m s] p]|] eqn:Hl.
  - destruct (send (channel b) (periodic_text m s)) as [[]|e];
      simpl; rewrite Hl; reflexivity.
  - simpl. rewrite Hl. reflexivity.
Qed.

(** A tick that returns has started the next timer, of delay 300. *)
Lemma completed_tick_reschedules (send : string -> string -> outcome unit)
    (b b' : MoodCheckBot) (d : Z) (rest : list Z) :
  timers b = d :: rest ->
  timer_fires send b = Some (b', Return tt) ->
  timers b' = (rest ++ [300])%list.
Proof.
  intros Ht Hf. unfold timer_fires in Hf. rewrite Ht in Hf.
  destruct (check_outcomes send (with_timers rest b))
    as [[_ H]|[(m & s & p & _ & _ & H)|(m & s & p & e & _ & _ & H)]];
    rewrite H in Hf; injection Hf as <-; try reflexivity.
  discriminate.
Qed.

(** With a transport that accepts every line, one pending timer of delay
    300 is followed by one pending timer of delay 300, whatever happens. *)
Lemma handle_keeps_the_timer (scorer : string -> outcome float)
    (rnd : list Z -> option Z) (send : string -> string -> outcome unit)
    (conv : string -> option Z) (b : MoodCheckBot) (ev : event) :
  (forall target text, send target text = Return tt) ->
  timers b = [300] ->
  timers (handle scorer rnd send conv b ev) = [300].
Proof.
  intros Hsend Hb.
  destruct ev as [m src| |m u| |u|u e c t]; simpl; try exact Hb.
  - rewrite (proj2 (on_pubmsg_mood_ai scorer rnd send b m src)). exact Hb.
  - unfold timer_fires. rewrite Hb.
    destruct (check_outcomes send (with_timers [] b))
      as [[_ ->]|[(m & s & p & _ & _ & ->)|(m & s & p & e & _ & He & _)]].
    + reflexivity.
    + reflexivity.
    + rewrite Hsend in He. discriminate.
Qed.

(** C9. The constructor starts one timer, of delay 300, and a tick that
    returns has started the next one, again of delay 300: that is the
    only delay [schedule_periodic_mood_check] uses, so in every state
    reached from construction all pending timers have that delay, and
    while the transport accepts every line exactly one timer of delay 300
    is pending after every event and its tick returns and leaves the
    next.  The tick does not read the preferences table: on a bot with any
    other table it fires the same way, has the same outcome and leaves the
    same bot, apart from that table. *)
Theorem scheduler_period_is_fixed :
  forall (send : string -> string -> outcome unit)
         (conv : string -> option Z) (b : MoodCheckBot)
         (prefs : gmap Z (Z * Z * option float)),
    timers (schedule_periodic_mood_check b) = (timers b ++ [300])%list /\
    check_and_respond_periodically send (with_preferences prefs b)
    = (with_preferences prefs
         (fst (check_and_respond_periodically send b)),
       snd (check_and_respond_periodically send b)) /\
    timers (fst (check_and_respond_periodically send
                   (with_preferences prefs b)))
    = timers (fst (check_and_respond_periodically send b)) /\
    (forall (scorer : string -> outcome float) (rnd : list Z -> option Z)
            (chan : string) (stored : db) (evs : list event),
        Forall (eq 300)
          (timers (run scorer rnd send conv
                     (MoodCheckBot_init chan (MoodAwareAI_init stored))
                     evs))) /\
    (forall (chan : string) (ai : MoodAwareAI),
        timers (MoodCheckBot_init chan ai) = [300]) /\
    (forall (d : Z) (rest : list Z) (b' : MoodCheckBot),
        timers b = d :: rest ->
        timer_fires send b = Some (b', Return tt) ->
        timers b' = (rest ++ [300])%list) /\
    timer_fires send (with_preferences prefs b)
    = match timer_fires send b with
      | Some (b', r) => Some (with_preferences prefs b', r)
      | None => None
      end /\
    (forall (scorer : string -> outcome float) (rnd : list Z -> option Z)
            (chan : string) (stored : db) (evs : list event),
        (forall target text, send target text = Return tt) ->
        timers (run scorer rnd send conv
                  (MoodCheckBot_init chan (MoodAwareAI_init stored)) evs)
        = [300] /\
        exists b' : MoodCheckBot,
          timer_fires send
            (run scorer rnd send conv
               (MoodCheckBot_init chan (MoodAwareAI_init stored)) evs)
          = Some (b', Return tt) /\
          timers b' = [300]).
Proof.
  intros send conv b prefs.
  pose proof (check_ignores_preferences send prefs b) as Hcomm.
  split; [reflexivity|]. split; [exact Hcomm|]. split.
  { rewrite Hcomm. reflexivity. }
  split.
  { intros scorer rnd chan stored evs.
    assert (Hgen : forall b0, Forall (eq 300) (timers b0) ->
                     Forall (eq 300)
                       (timers (run scorer rnd send conv b0 evs))).
    { induction evs as [|ev evs IH]; intros b0 Hb0; [exact Hb0|].
      simpl. apply IH. apply handle_timers. exact Hb0. }
    apply Hgen. simpl. constructor; [reflexivity|constructor]. }
  split; [reflexivity|]. split.
  { intros d rest b' Ht Hf.
    exact (completed_tick_reschedules send b b' d rest Ht Hf). }
  split.
  { unfold timer_fires. simpl. destruct (timers b) as [|d rest];
      [reflexivity|].
    change (with_timers rest (with_preferences prefs b))
      with (with_preferences prefs (with_timers rest b)).
    rewrite (check_ignores_preferences send prefs (with_timers rest b)).
    destruct (check_and_respond_periodically send (with_timers rest b))
      as [b' r]. reflexivity. }
  intros scorer rnd chan stored evs Hsend.
  assert (Hgen : forall b0, timers b0 = [300] ->
                   timers (run scorer rnd send conv b0 evs) = [300]).
  { induction evs as [|ev evs IH]; intros b0 Hb0; [exact Hb0|].
    simpl. apply IH. apply handle_keeps_the_timer; assumption. }
  assert (Hrun : timers (run scorer rnd send conv
                           (MoodCheckBot_init chan (MoodAwareAI_init stored))
                           evs) = [300])
    by (apply Hgen; reflexivity).
  split; [exact Hrun|].
  pose proof (handle_keeps_the_timer scorer rnd send conv _ TimerFires
                Hsend Hrun) as Hnext.
  simpl in Hnext. unfold timer_fires in *. rewrite Hrun in *.
  destruct (check_outcomes send
              (with_timers []
                 (run scorer rnd send conv
                    (MoodCheckBot_init chan (MoodAwareAI_init stored)) evs)))
    as [[_ H]|[(m & s & p & _ & _ & H)|(m & s & p & e & _ & He & _)]].
  - rewrite H in *. eexists. split; [reflexivity|exact Hnext].
  - rewrite H in *. eexists. split; [reflexivity|exact Hnext].
  - rewrite Hsend in He. discriminate.
Qed.

Lemma scheduler_period_is_fixed_witness :
  let b :=
    run (fun _ => Return 0.5%float) (fun _ => None) connected plain_decimal
      (MoodCheckBot_init "#wetfish" (MoodAwareAI_init earlier_db))
      [TimerFires; PubMsg "I love this!" "alice!a@example.org";
       UpdateUserPreferences (IntKey 7) false 60 0.25%float;
       TimerFires; TimerFires] in
  (forall target text, connected target text = Return tt) /\
  timers b = [300] /\
  exists b' : MoodCheckBot,
    timer_fires connected b = Some (b', Return tt) /\ timers b' = [300].
Proof.
  intros b. split; [reflexivity|].
  apply (proj2 (proj2 (proj2 (proj2 (proj2 (proj2 (proj2
           (scheduler_period_is_fixed connected plain_decimal
              (MoodCheckBot_init "#wetfish" (MoodAwareAI_init earlier_db))
              (preferences earlier_db)))))))) (fun _ => Return 0.5%float)
          (fun _ => None) "#wetfish" earlier_db).
  reflexivity.
Defined.

(** ** MoodState is never cleared *)

(** C10. Every event either leaves the slot as it was or fills it with a
    record; so once the slot is filled it is filled after any further
    sequence of events, and in particular after any sequence that follows
    an [analyze_message] call that returned. *)
Theorem latest_never_cleared :
  forall (scorer : string -> outcome float) (rnd : list Z -> option Z)
         (send : string -> string -> outcome unit)
         (conv : string -> option Z) (b : MoodCheckBot),
    (forall ev,
        get_latest_message (mood_ai (handle scorer rnd send conv b ev))
        = get_latest_message (mood_ai b) \/
        exists rec,
          get_latest_message (mood_ai (handle scorer rnd send conv b ev))
          = Some rec) /\
    (forall evs,
        get_latest_message (mood_ai b) <> None ->
        get_latest_message (mood_ai (run scorer rnd send conv b evs)) <> None) /\
    (forall m u r evs,
        snd (analyze_message scorer rnd (mood_ai b) m u) = Return r ->
        get_latest_message
          (mood_ai
             (run scorer rnd send conv (handle scorer rnd send conv b
                                     (AnalyzeMessage m u)) evs))
        <> None).
Proof.
  intros scorer rnd send conv b. split; [|split].
  - intros ev. apply handle_slot.
  - intros evs. apply run_slot_filled.
  - intros m u [l p] evs Hret. apply run_slot_filled. simpl.
    rewrite (analyze_message_sets_latest scorer rnd (mood_ai b) m u l p Hret).
    discriminate.
Qed.

Lemma latest_never_cleared_witness :
  let scorer := fun m : string =>
    if String.eqb m "boom" then Raise "TypeError" else Return 0.5%float in
  let rnd := fun _ : list Z => @None Z in
  let b := MoodCheckBot_init "#wetfish" (MoodAwareAI_init empty_db) in
  snd (analyze_message scorer rnd (mood_ai b) "I love this!" "alice")
  = Return (Positive, 0.5%float) /\
  get_latest_message
    (mood_ai
       (run scorer rnd not_connected plain_decimal
          (handle scorer rnd not_connected plain_decimal b
             (AnalyzeMessage "I love this!" "alice"))
          [TimerFires; UpdateUserPreferences (IntKey 7) false 60 0.25%float;
           PubMsg "boom" "bob!bob@example.org"; GetLatestMessage;
           TimerFires]))
  <> None.
Proof.
  intros scorer rnd b.
  assert (H : snd (analyze_message scorer rnd (mood_ai b)
                     "I love this!" "alice")
              = Return (Positive, 0.5%float)) by (vm_compute; reflexivity).
  split; [exact H|].
  exact (proj2 (proj2 (latest_never_cleared scorer rnd not_connected plain_decimal b))
           "I love this!" "alice" (Positive, 0.5%float) _ H).
Defined.

(** * Further properties of the code *)

(** ** Classification is symmetric in the sign of the polarity *)

Lemma SFltb_opp_right (m0 : positive) (e0 : Z) (P : spec_float) :
  SFltb (S754_finite false m0 e0) (SFopp P)
  = SFltb P (S754_finite true m0 e0).
Proof.
  destruct P as [[]|[]| |[] m e]; try reflexivity.
  unfold SFltb, SFopp, SFcompare, negb.
  rewrite (Z.compare_antisym e0 e).
  destruct (e0 ?= e) eqn:He; simpl; try reflexivity.
  rewrite (Pos.compare_cont_antisym m m0 Eq). simpl.
  destruct (Pos.compare_cont Eq m0 m); reflexivity.
Qed.

Lemma SFltb_opp_left (m0 : positive) (e0 : Z) (P : spec_float) :
  SFltb (SFopp P) (S754_finite true m0 e0)
  = SFltb (S754_finite false m0 e0) P.
Proof.
  destruct P as [[]|[]| |[] m e]; try reflexivity.
  unfold SFltb, SFopp, SFcompare, negb.
  rewrite (Z.compare_antisym e0 e).
  destruct (e0 ?= e) eqn:He; simpl; try reflexivity.
  rewrite (Pos.compare_cont_antisym m m0 Eq). simpl.
  destruct (Pos.compare_cont Eq m0 m); reflexivity.
Qed.

(** Negating the polarity exchanges Positive and Negative and keeps
    Neutral: the two thresholds are placed symmetrically, with the same
    strictness on both sides. *)
Theorem label_of_polarity_opp :
  forall p : float,
    label_of_polarity (- p) = mirror (label_of_polarity p).
Proof.
  intros p. unfold label_of_polarity.
  assert (H1 : (threshold <? - p)%float = (p <? - threshold)%float).
  { rewrite !ltb_spec, opp_spec, threshold_repr, neg_threshold_repr.
    apply SFltb_opp_right. }
  assert (H2 : (- p <? - threshold)%float = (threshold <? p)%float).
  { rewrite !ltb_spec, opp_spec, threshold_repr, neg_threshold_repr.
    apply SFltb_opp_left. }
  rewrite H1, H2.
  destruct (threshold <? p)%float eqn:Ha;
    destruct (p <? - threshold)%float eqn:Hb; try reflexivity.
  rewrite (below_not_above p Hb) in Ha. discriminate.
Qed.

(** ** The sender's nick *)

Lemma nick_of_no_bang (source : string) :
  has_bang source = false -> nick_of source = source.
Proof.
  induction source as [|c rest IH]; simpl; [reflexivity|].
  destruct (Ascii.eqb c "!"%char); simpl; [discriminate|].
  intros H. rewrite (IH H). reflexivity.
Qed.

(** [e.source.split('!')[0]]: the nick has no '!'; a source without '!' is
    its own nick; and of [nick!rest] exactly [nick] is taken, whatever
    follows the first '!' (further '!' included). *)
Theorem nick_of_takes_text_before_first_bang :
  forall source : string,
    has_bang (nick_of source) = false /\
    (has_bang source = false -> nick_of source = source) /\
    (forall nick rest,
        has_bang nick = false ->
        source = nick ++ String "!"%char rest ->
        nick_of source = nick).
Proof.
  intros source. split; [|split].
  - induction source as [|c rest IH]; simpl; [reflexivity|].
    destruct (Ascii.eqb c "!"%char) eqn:Hc; simpl; [reflexivity|].
    rewrite Hc. exact IH.
  - apply nick_of_no_bang.
  - intros nick rest Hn ->.
    induction nick as [|c nick IH]; simpl.
    + reflexivity.
    + simpl in Hn. destruct (Ascii.eqb c "!"%char); simpl in Hn;
        [discriminate|].
      rewrite (IH Hn). reflexivity.
Qed.

Lemma nick_of_takes_text_before_first_bang_witness :
  has_bang "alice" = false /\
  nick_of "alice!~a@example.org!x" = "alice".
Proof.
  split; [reflexivity|].
  exact (proj2 (proj2 (nick_of_takes_text_before_first_bang
                         "alice!~a@example.org!x"))
           "alice" "~a@example.org!x" eq_refl eq_refl).
Defined.

(** ** The reply and the periodic text determine the label *)

Lemma string_app_cancel (u x y : string) :
  u ++ x = u ++ y -> x = y.
Proof.
  induction u as [|c u IH]; simpl; intros H; [exact H|].
  injection H as H. apply IH. exact H.
Qed.

(** The three immediate replies to a user are pairwise different, and so
    are the three periodic texts for a message: the label a text was
    composed for can be read back from it. *)
Theorem texts_determine_the_label :
  forall (user message : string) (s1 s2 : sentiment),
    (reply_text user s1 = reply_text user s2 -> s1 = s2) /\
    (periodic_text message s1 = periodic_text message s2 -> s1 = s2).
Proof.
  intros user message s1 s2. split.
  - unfold reply_text. intros H.
    destruct s1, s2; try reflexivity;
      apply string_app_cancel in H; discriminate H.
  - unfold periodic_text. intros H.
    destruct s1, s2; try reflexivity; simpl in H; discriminate H.
Qed.

Lemma texts_determine_the_label_witness :
  reply_text "alice" Positive = reply_text "alice" Positive /\
  Positive = Positive.
Proof.
  split; [reflexivity|].
  exact (proj1 (texts_determine_the_label "alice" "I love this!"
                  Positive Positive) eq_refl).
Defined.

(** ** The preferences table *)

(** For integer user ids and check intervals of 64 bits the writes
    return, and writes for different users do not interfere: in either
    order they leave the same table.  A write makes its key present and
    adds no other key; it never removes one: whoever had a row before
    still has one. *)
Theorem preference_writes_are_per_user :
  forall (conv : string -> option Z) (d : db) (u1 u2 : Z) (e1 e2 : bool)
         (c1 c2 : Z) (m1 m2 : float),
    in_int64 u1 = true -> in_int64 u2 = true ->
    in_int64 c1 = true -> in_int64 c2 = true ->
    exists d1 d2 d12 : db,
      set_user_preferences conv d (IntKey u1) e1 c1 m1 = Return (d1, PyNone)
      /\
      set_user_preferences conv d (IntKey u2) e2 c2 m2 = Return (d2, PyNone)
      /\
      set_user_preferences conv d1 (IntKey u2) e2 c2 m2
      = Return (d12, PyNone) /\
      (u1 <> u2 ->
       set_user_preferences conv d2 (IntKey u1) e1 c1 m1
       = Return (d12, PyNone)) /\
      dom (preferences d1) = {[u1]} ∪ dom (preferences d) /\
      (forall k row,
          get_user_preferences conv d k = Return (Some row) ->
          exists row',
            get_user_preferences conv d1 k = Return (Some row')).
Proof.
  intros conv d u1 u2 e1 e2 c1 c2 m1 m2 Hu1 Hu2 Hc1 Hc2.
  eexists. eexists. eexists.
  split; [apply set_user_preferences_returns; assumption|].
  split; [apply set_user_preferences_returns; assumption|].
  split; [apply set_user_preferences_returns; assumption|].
  split; [|split].
  - intros Hne.
    rewrite (set_user_preferences_returns conv _ u1 e1 c1 m1 Hu1 Hc1).
    simpl. f_equal. f_equal. f_equal. apply insert_insert_ne. congruence.
  - simpl. apply dom_insert_L.
  - intros k row Hget. unfold get_user_preferences in *.
    destruct (bind_user_key k); [|discriminate].
    destruct (rowid_of_key conv k) as [key|]; [|discriminate].
    simpl. destruct (decide (u1 = key)) as [->|Hne].
    + rewrite lookup_insert_eq. eexists. reflexivity.
    + rewrite lookup_insert_ne by exact Hne.
      destruct (preferences d !! key) as [[[x1 x2] x3]|]; [|discriminate].
      eexists. reflexivity.
Qed.

Lemma preference_writes_are_per_user_witness :
  exists d1 d2 d12 : db,
    set_user_preferences plain_decimal earlier_db (IntKey 8) false 60
      0.25%float = Return (d1, PyNone) /\
    set_user_preferences plain_decimal earlier_db (IntKey 9) true 30
      0.75%float = Return (d2, PyNone) /\
    set_user_preferences plain_decimal d1 (IntKey 9) true 30 0.75%float
    = Return (d12, PyNone) /\
    set_user_preferences plain_decimal d2 (IntKey 8) false 60 0.25%float
    = Return (d12, PyNone) /\
    get_user_preferences plain_decimal d12 (IntKey 7)
    = Return (Some (7, 1, 300, Some 0.5%float)).
Proof.
  destruct (preference_writes_are_per_user plain_decimal earlier_db 8 9
              false true 60 30 0.25%float 0.75%float
              eq_refl eq_refl eq_refl eq_refl)
    as (d1 & d2 & d12 & H1 & H2 & H12 & H21 & _ & _).
  exists d1, d2, d12.
  split; [exact H1|]. split; [exact H2|]. split; [exact H12|].
  split; [apply H21; discriminate|].
  rewrite (set_user_preferences_returns plain_decimal earlier_db 8 false 60
             0.25%float eq_refl eq_refl) in H1.
  injection H1 as <-.
  rewrite (set_user_preferences_returns plain_decimal _ 9 true 30
             0.75%float eq_refl eq_refl) in H12.
  injection H12 as <-.
  vm_compute. reflexivity.
Defined.

(** ** Starting on an existing database file *)

(** [setup_db] can be repeated without effect and never drops a row: on a
    file left by an earlier run the engine starts with both tables as they
    were and with an empty [latest_message]; on a file without tables it
    starts with two empty tables.  The bot built by [main] has one timer
    pending, of delay 300, and has sent nothing. *)
Theorem start_keeps_tables_and_empties_slot :
  forall (f : db_file) (ai : MoodAwareAI),
    setup_db (setup_db f) = setup_db f /\
    MoodAwareAI_open (file_of (db_manager ai))
    = (file_of (db_manager ai),
       {| db_manager := db_manager ai; latest_message := None |}) /\
    snd (MoodAwareAI_open
           {| preferences_table := None; sentiment_history_table := None |})
    = MoodAwareAI_init empty_db /\
    fst (MoodAwareAI_open (fst (MoodAwareAI_open f)))
    = fst (MoodAwareAI_open f) /\
    timers (main f) = [300] /\
    delivered (main f) = [] /\
    get_latest_message (mood_ai (main f)) = None /\
    db_manager (mood_ai (main f)) = tables (setup_db f).
Proof.
  intros f ai. repeat split.
  - unfold setup_db. simpl.
    destruct (preferences_table f), (sentiment_history_table f); reflexivity.
  - unfold MoodAwareAI_open, MoodAwareAI_init, setup_db, tables, file_of.
    simpl. destruct (db_manager ai). reflexivity.
  - unfold MoodAwareAI_open. simpl. unfold setup_db. simpl.
    destruct (preferences_table f), (sentiment_history_table f); reflexivity.
Qed.

(** ** How the events act on the engine *)

(** An event leaves the engine alone, calls [analyze_message] on it, or
    writes one preferences row. *)
Lemma handle_mood_ai (scorer : string -> outcome float)
    (rnd : list Z -> option Z) (send : string -> string -> outcome unit)
    (conv : string -> option Z)
    (b : MoodCheckBot) (ev : event) :
  mood_ai (handle scorer rnd send conv b ev) = mood_ai b \/
  (is_analysis ev = true /\
   exists m u,
     mood_ai (handle scorer rnd send conv b ev)
     = fst (analyze_message scorer rnd (mood_ai b) m u)) \/
  (is_preferences_update ev = true /\
   exists u e c t,
     mood_ai (handle scorer rnd send conv b ev)
     = fst (update_user_preferences conv (mood_ai b) u e c t)).
Proof.
  destruct ev as [m src| |m u| |u|u e c t]; simpl.
  - right. left. split; [reflexivity|]. exists m, (nick_of src).
    apply (on_pubmsg_mood_ai scorer rnd send b m src).
  - left. unfold timer_fires. destruct (timers b) as [|d rest]; [reflexivity|].
    pose proof (check_keeps_mood_ai send (with_timers rest b)) as H.
    destruct (check_and_respond_periodically send (with_timers rest b))
      as [b' r]. exact H.
  - right. left. split; [reflexivity|]. exists m, u. reflexivity.
  - left. reflexivity.
  - left. reflexivity.
  - right. right. split; [reflexivity|]. exists u, e, c, t. reflexivity.
Qed.

(** A property of the engine kept by [analyze_message] and by
    [update_user_preferences] holds after every sequence of events. *)
Lemma run_engine_invariant (scorer : string -> outcome float)
    (rnd : list Z -> option Z) (send : string -> string -> outcome unit)
    (conv : string -> option Z)
    (P : MoodAwareAI -> Prop) :
  (forall ai m u, P ai -> P (fst (analyze_message scorer rnd ai m u))) ->
  (forall ai u e c t,
      P ai -> P (fst (update_user_preferences conv ai u e c t))) ->
  forall evs b,
    P (mood_ai b) -> P (mood_ai (run scorer rnd send conv b evs)).
Proof.
  intros Han Hup evs.
  induction evs as [|ev evs IH]; intros b Hb; [exact Hb|].
  simpl. apply IH.
  destruct (handle_mood_ai scorer rnd send conv b ev)
    as [->|[(_ & m & u & ->)|(_ & u & e & c & t & ->)]].
  - exact Hb.
  - apply Han. exact Hb.
  - apply Hup. exact Hb.
Qed.

(** What [analyze_message] does to the history table: nothing, or one row
    appended, carrying the message, the user and the classification. *)
Lemma analyze_message_history (scorer : string -> outcome float)
    (rnd : list Z -> option Z) (ai : MoodAwareAI) (m u : string) :
  (fst (analyze_message scorer rnd ai m u) = ai) \/
  (exists p i,
      scorer m = Return p /\
      new_rowid rnd (history_ids (sentiment_history (db_manager ai)))
      = Some i /\
      fst (analyze_message scorer rnd ai m u)
      = {| db_manager :=
             {| preferences := preferences (db_manager ai);
                sentiment_history :=
                  sentiment_history (db_manager ai) ++
                  [ {| hist_id := i; hist_user_id := u; hist_message := m;
                       hist_sentiment := label_of_polarity p;
                       hist_polarity := p |} ] |};
           latest_message := Some (m, label_of_polarity p, p) |}).
Proof.
  unfold analyze_message, analyze_sentiment, log_sentiment.
  destruct (scorer m) as [p|e]; [|left; reflexivity].
  destruct (new_rowid rnd _) as [i|] eqn:Hi; [|left; reflexivity].
  right. exists p, i. repeat split.
Qed.

Lemma newest_row_app (rows : list history_row) (r : history_row) :
  newest_row (rows ++ [r]) = Some r.
Proof. unfold newest_row. rewrite rev_app_distr. reflexivity. Qed.

(** ** Label and polarity are stored together and agree *)

(** If the label of every row of the history is the one its polarity
    classifies to, and so for the record in the slot, the same holds after
    every sequence of events: no handler stores a label apart from its
    polarity. *)
Theorem stored_labels_agree_with_polarities :
  forall (scorer : string -> outcome float) (rnd : list Z -> option Z)
         (send : string -> string -> outcome unit)
         (conv : string -> option Z) (b : MoodCheckBot)
         (evs : list event),
    Forall row_consistent (sentiment_history (db_manager (mood_ai b))) ->
    (forall m l p,
        get_latest_message (mood_ai b) = Some (m, l, p) ->
        l = label_of_polarity p) ->
    Forall row_consistent
      (sentiment_history
         (db_manager (mood_ai (run scorer rnd send conv b evs)))) /\
    (forall m l p,
        get_latest_message (mood_ai (run scorer rnd send conv b evs))
        = Some (m, l, p) ->
        l = label_of_polarity p).
Proof.
  intros scorer rnd send conv b evs H1 H2.
  apply (run_engine_invariant scorer rnd send conv
           (fun ai =>
              Forall row_consistent (sentiment_history (db_manager ai)) /\
              (forall m l p,
                  get_latest_message ai = Some (m, l, p) ->
                  l = label_of_polarity p))).
  - intros ai m u [Ha Hb].
    destruct (analyze_message_history scorer rnd ai m u)
      as [->|(p & i & _ & _ & ->)]; [split; assumption|].
    simpl. split.
    + apply Forall_app. split; [exact Ha|].
      constructor; [reflexivity|constructor].
    + intros m' l' p' Heq. injection Heq as _ <- <-. reflexivity.
  - intros ai u e c t [Ha Hb].
    destruct (update_user_preferences_keeps conv ai u e c t) as [Hh Hl].
    unfold get_latest_message in *. rewrite Hh, Hl. split; assumption.
  - split; assumption.
Qed.

Lemma stored_labels_agree_with_polarities_witness :
  let scorer := fun m : string =>
    if String.eqb m "I love this!" then Return 0.5%float
    else Return (-0.5)%float in
  let b := main {| preferences_table := None;
                   sentiment_history_table := None |} in
  Forall row_consistent
    (sentiment_history
       (db_manager
          (mood_ai
             (run scorer (fun _ => None) connected plain_decimal b
                [PubMsg "I love this!" "alice!a@example.org";
                 TimerFires;
                 PubMsg "I hate this" "bob!b@example.org"])))).
Proof.
  intros scorer b.
  apply (stored_labels_agree_with_polarities scorer (fun _ => None)
           connected plain_decimal b).
  - constructor.
  - intros m l p H. discriminate H.
Defined.

(** ** The slot mirrors the newest row *)

(** In a process that started with an empty slot, after any sequence of
    events the slot is empty or holds exactly the message, label and
    polarity of the row most recently appended to the history table. *)
Theorem slot_is_the_newest_row :
  forall (scorer : string -> outcome float) (rnd : list Z -> option Z)
         (send : string -> string -> outcome unit)
         (conv : string -> option Z) (b : MoodCheckBot)
         (evs : list event),
    get_latest_message (mood_ai b) = None ->
    get_latest_message (mood_ai (run scorer rnd send conv b evs)) = None \/
    exists r,
      newest_row
        (sentiment_history
           (db_manager (mood_ai (run scorer rnd send conv b evs)))) = Some r /\
      get_latest_message (mood_ai (run scorer rnd send conv b evs))
      = Some (record_of_row r).
Proof.
  intros scorer rnd send conv b evs Hb.
  apply (run_engine_invariant scorer rnd send conv
           (fun ai =>
              get_latest_message ai = None \/
              exists r,
                newest_row (sentiment_history (db_manager ai)) = Some r /\
                get_latest_message ai = Some (record_of_row r))).
  - intros ai m u Hai.
    destruct (analyze_message_history scorer rnd ai m u)
      as [->|(p & i & _ & _ & ->)]; [exact Hai|].
    right. eexists. simpl. split; [apply newest_row_app|reflexivity].
  - intros ai u e c t Hai.
    destruct (update_user_preferences_keeps conv ai u e c t) as [Hh Hl].
    unfold get_latest_message in *. rewrite Hh, Hl. exact Hai.
  - left. exact Hb.
Qed.

Lemma slot_is_the_newest_row_witness :
  let b := main {| preferences_table := None;
                   sentiment_history_table := None |} in
  let b' :=
    run (fun _ => Return 0.5%float) (fun _ => None) not_connected plain_decimal b
      [PubMsg "I love this!" "alice!a@example.org"; TimerFires] in
  get_latest_message (mood_ai b) = None /\
  (get_latest_message (mood_ai b') = None \/
   exists r,
     newest_row (sentiment_history (db_manager (mood_ai b'))) = Some r /\
     get_latest_message (mood_ai b') = Some (record_of_row r)).
Proof.
  intros b b'. split; [reflexivity|].
  apply (slot_is_the_newest_row (fun _ => Return 0.5%float) (fun _ => None)
           not_connected plain_decimal b). reflexivity.
Defined.

(** ** The history table only grows *)

(** No event removes or changes a row of the history table: after any
    sequence of events the table is the old one followed by new rows, at
    most one per event. *)
Theorem history_is_append_only :
  forall (scorer : string -> outcome float) (rnd : list Z -> option Z)
         (send : string -> string -> outcome unit)
         (conv : string -> option Z) (evs : list event)
         (b : MoodCheckBot),
    exists added : list history_row,
      sentiment_history (db_manager (mood_ai (run scorer rnd send conv b evs)))
      = (sentiment_history (db_manager (mood_ai b)) ++ added)%list /\
      (length added <= length evs)%nat.
Proof.
  intros scorer rnd send conv evs.
  induction evs as [|ev evs IH]; intros b.
  - exists []. simpl. rewrite app_nil_r. split; [reflexivity|lia].
  - simpl. destruct (IH (handle scorer rnd send conv b ev)) as (added & -> & Hlen).
    destruct (handle_mood_ai scorer rnd send conv b ev)
      as [->|[(_ & m & u & ->)|(_ & u & e & c & t & ->)]].
    + exists added. split; [reflexivity|lia].
    + destruct (analyze_message_history scorer rnd (mood_ai b) m u)
        as [->|(p & i & _ & _ & ->)].
      * exists added. split; [reflexivity|lia].
      * simpl. eexists. rewrite <- app_assoc. split; [reflexivity|].
        simpl. lia.
    + rewrite (proj1 (update_user_preferences_keeps conv (mood_ai b) u e c t)).
      exists added. split; [reflexivity|lia].
Qed.

(** ** Ids in the history table *)

(** If no two rows of the history table share an id, the same holds after
    every sequence of events, whatever ids the table held and whatever the
    random probe at the cap proposes. *)
Theorem history_ids_stay_unique :
  forall (scorer : string -> outcome float) (rnd : list Z -> option Z)
         (send : string -> string -> outcome unit)
         (conv : string -> option Z) (b : MoodCheckBot)
         (evs : list event),
    List.NoDup (history_ids (sentiment_history (db_manager (mood_ai b)))) ->
    List.NoDup
      (history_ids
         (sentiment_history
            (db_manager (mood_ai (run scorer rnd send conv b evs))))).
Proof.
  intros scorer rnd send conv b evs Hb.
  apply (run_engine_invariant scorer rnd send conv
           (fun ai =>
              List.NoDup (history_ids (sentiment_history (db_manager ai))))).
  - intros ai m u Hai.
    destruct (analyze_message_history scorer rnd ai m u)
      as [->|(p & i & _ & Hi & ->)]; [exact Hai|].
    simpl. unfold history_ids in *. rewrite map_app. simpl.
    apply List.NoDup_app.
    + exact Hai.
    + apply List.NoDup_cons; [intros []|apply List.NoDup_nil].
    + intros x Hx [<-|[]].
      exact (new_rowid_unused rnd _ _ Hi Hx).
  - intros ai u e c t Hai.
    rewrite (proj1 (update_user_preferences_keeps conv ai u e c t)).
    exact Hai.
  - exact Hb.
Qed.

Lemma history_ids_stay_unique_witness :
  let b := main {| preferences_table := None;
                   sentiment_history_table :=
                     Some [ {| hist_id := max_rowid; hist_user_id := "carol";
                               hist_message := "hello";
                               hist_sentiment := Neutral;
                               hist_polarity := 0%float |} ] |} in
  List.NoDup
    (history_ids
       (sentiment_history
          (db_manager
             (mood_ai
                (run (fun _ => Return 0.5%float) (fun _ => Some 41)
                   connected plain_decimal b
                   [PubMsg "I love this!" "alice!a@example.org";
                    PubMsg "me too" "bob!b@example.org"]))))).
Proof.
  intros b.
  apply (history_ids_stay_unique (fun _ => Return 0.5%float)
           (fun _ => Some 41) connected plain_decimal b).
  simpl. apply List.NoDup_cons; [intros []|apply List.NoDup_nil].
Defined.

Lemma largest_rowid_snoc (ids : list Z) (x : Z) :
  largest_rowid (ids ++ [x])
  = Some (match largest_rowid ids with
          | None => x
          | Some m => Z.max m x
          end).
Proof.
  induction ids as [|i rest IH]; simpl; [reflexivity|].
  rewrite IH. destruct (largest_rowid rest) as [m|]; f_equal; lia.
Qed.

Lemma first_ids_succ (n : nat) :
  first_ids (S n) = (first_ids n ++ [Z.of_nat (S n)])%list.
Proof.
  unfold first_ids. rewrite seq_S, map_app. reflexivity.
Qed.

Lemma largest_rowid_first_ids (n : nat) :
  largest_rowid (first_ids (S n)) = Some (Z.of_nat (S n)).
Proof.
  induction n as [|n IH]; [reflexivity|].
  rewrite first_ids_succ, largest_rowid_snoc, IH. f_equal. lia.
Qed.

Lemma new_rowid_first_ids (rnd : list Z -> option Z) (n : nat) :
  Z.of_nat n < max_rowid ->
  new_rowid rnd (first_ids n) = Some (Z.of_nat (S n)).
Proof.
  intros Hn. unfold new_rowid. destruct n as [|n]; [reflexivity|].
  rewrite largest_rowid_first_ids.
  apply Z.ltb_lt in Hn. rewrite Hn. f_equal. lia.
Qed.

(** In a history table whose ids are 1, 2, ..., n, the rows logged by any
    sequence of events continue the numbering without gap: the k-th row of
    the table has id k, as long as the count stays below the cap. *)
Theorem history_ids_count_from_one :
  forall (scorer : string -> outcome float) (rnd : list Z -> option Z)
         (send : string -> string -> outcome unit)
         (conv : string -> option Z) (evs : list event)
         (b : MoodCheckBot),
    history_ids (sentiment_history (db_manager (mood_ai b)))
    = first_ids (length (sentiment_history (db_manager (mood_ai b)))) ->
    Z.of_nat (length (sentiment_history (db_manager (mood_ai b)))
              + length evs) < max_rowid ->
    history_ids
      (sentiment_history (db_manager (mood_ai (run scorer rnd send conv b evs))))
    = first_ids
        (length
           (sentiment_history
              (db_manager (mood_ai (run scorer rnd send conv b evs))))).
Proof.
  intros scorer rnd send conv evs.
  induction evs as [|ev evs IH]; intros b Hb Hlen; [exact Hb|].
  simpl. simpl in Hlen.
  assert (Hstep :
            history_ids
              (sentiment_history
                 (db_manager (mood_ai (handle scorer rnd send conv b ev))))
            = first_ids
                (length
                   (sentiment_history
                      (db_manager (mood_ai (handle scorer rnd send conv b ev)))))
            /\
            (length
               (sentiment_history
                  (db_manager (mood_ai (handle scorer rnd send conv b ev))))
             <= S (length (sentiment_history (db_manager (mood_ai b)))))%nat).
  { destruct (handle_mood_ai scorer rnd send conv b ev)
      as [->|[(_ & m & u & ->)|(_ & u & e & c & t & ->)]].
    - split; [exact Hb|lia].
    - destruct (analyze_message_history scorer rnd (mood_ai b) m u)
        as [->|(p & i & _ & Hi & ->)]; [split; [exact Hb|lia]|].
      simpl. rewrite Hb in Hi.
      rewrite new_rowid_first_ids in Hi by lia. injection Hi as <-.
      unfold history_ids in *. rewrite map_app, length_app, Hb. simpl.
      rewrite Nat.add_1_r. rewrite first_ids_succ. split; [reflexivity|lia].
    - rewrite (proj1 (update_user_preferences_keeps conv (mood_ai b)
                        u e c t)).
      split; [exact Hb|lia]. }
  destruct Hstep as [Hids Hle].
  apply IH; [exact Hids|lia].
Qed.

Lemma history_ids_count_from_one_witness :
  let b := main {| preferences_table := None;
                   sentiment_history_table := None |} in
  let b' :=
    run (fun _ => Return 0.5%float) (fun _ => None) connected plain_decimal b
      [PubMsg "I love this!" "alice!a@example.org"; TimerFires;
       PubMsg "me too" "bob!b@example.org"] in
  history_ids (sentiment_history (db_manager (mood_ai b')))
  = first_ids (length (sentiment_history (db_manager (mood_ai b')))).
Proof.
  intros b b'.
  apply (history_ids_count_from_one (fun _ => Return 0.5%float)
           (fun _ => None) connected plain_decimal _ b).
  - reflexivity.
  - vm_compute. reflexivity.
Defined.

(** ** A full history table *)

(** When a row of the history table already has the largest possible id and
    the random probe finds no free id, [log_sentiment] raises and changes
    nothing, and so does [analyze_message]: the message is classified but
    neither logged nor put in the slot. *)
Theorem full_history_rejects_the_message :
  forall (scorer : string -> outcome float) (rnd : list Z -> option Z)
         (ai : MoodAwareAI) (message user_id : string) (s : sentiment)
         (p : float),
    In max_rowid (history_ids (sentiment_history (db_manager ai))) ->
    rnd (history_ids (sentiment_history (db_manager ai))) = None ->
    log_sentiment rnd (db_manager ai) user_id message s p
    = Raise "OperationalError" /\
    (scorer message = Return p ->
     analyze_message scorer rnd ai message user_id
     = (ai, Raise "OperationalError")).
Proof.
  intros scorer rnd ai message user_id s p Hin Hrnd.
  assert (Hnew : new_rowid rnd
                   (history_ids (sentiment_history (db_manager ai))) = None).
  { unfold new_rowid.
    destruct (largest_rowid _) as [m|] eqn:Hm.
    - pose proof (largest_rowid_bounds _ m Hm _ Hin) as Hle.
      assert (Hlt : (m <? max_rowid) = false) by (apply Z.ltb_ge; exact Hle).
      rewrite Hlt, Hrnd. reflexivity.
    - apply largest_rowid_empty in Hm. rewrite Hm in Hin. destruct Hin. }
  split.
  - unfold log_sentiment. rewrite Hnew. reflexivity.
  - intros Hs. unfold analyze_message, analyze_sentiment, log_sentiment.
    rewrite Hs, Hnew. reflexivity.
Qed.

Lemma full_history_rejects_the_message_witness :
  let ai :=
    MoodAwareAI_init
      {| preferences := ∅;
         sentiment_history :=
           [ {| hist_id := max_rowid; hist_user_id := "carol";
                hist_message := "hello"; hist_sentiment := Neutral;
                hist_polarity := 0%float |} ] |} in
  log_sentiment (fun _ => None) (db_manager ai) "alice" "I love this!"
    Positive 0.5%float
  = Raise "OperationalError".
Proof.
  intros ai.
  apply (full_history_rejects_the_message (fun _ => Return 0.5%float)
           (fun _ => None) ai "I love this!" "alice" Positive 0.5%float).
  - left. reflexivity.
  - reflexivity.
Defined.

(** ** Chat never writes the preferences table *)

(** A sequence of events without a call of [update_user_preferences]
    leaves the preferences table as it was: classifying and logging the
    messages of a user creates no preferences row for that user, and a
    lookup gives what it gave before. *)
Theorem preferences_change_only_by_update :
  forall (scorer : string -> outcome float) (rnd : list Z -> option Z)
         (send : string -> string -> outcome unit)
         (conv : string -> option Z) (evs : list event)
         (b : MoodCheckBot),
    forallb (fun ev => negb (is_preferences_update ev)) evs = true ->
    preferences (db_manager (mood_ai (run scorer rnd send conv b evs)))
    = preferences (db_manager (mood_ai b)) /\
    (forall u,
        get_user_preferences conv
          (db_manager (mood_ai (run scorer rnd send conv b evs))) u
        = get_user_preferences conv (db_manager (mood_ai b)) u).
Proof.
  intros scorer rnd send conv evs.
  assert (Hgen : forall b,
             forallb (fun ev => negb (is_preferences_update ev)) evs = true ->
             preferences (db_manager (mood_ai (run scorer rnd send conv b evs)))
             = preferences (db_manager (mood_ai b))).
  { induction evs as [|ev evs IH]; intros b Hall; [reflexivity|].
    simpl in Hall. apply andb_prop in Hall. destruct Hall as [Hev Hall].
    simpl. rewrite (IH _ Hall).
    destruct (handle_mood_ai scorer rnd send conv b ev)
      as [->|[(_ & m & u & ->)|(Hup & _)]].
    - reflexivity.
    - destruct (analyze_message_history scorer rnd (mood_ai b) m u)
        as [->|(p & i & _ & _ & ->)]; reflexivity.
    - rewrite Hup in Hev. discriminate. }
  intros b Hall. split; [apply Hgen; exact Hall|].
  intros u. unfold get_user_preferences. rewrite (Hgen b Hall). reflexivity.
Qed.

Lemma preferences_change_only_by_update_witness :
  let b := main {| preferences_table := None;
                   sentiment_history_table := None |} in
  get_user_preferences plain_decimal
    (db_manager
       (mood_ai
          (run (fun _ => Return 0.5%float) (fun _ => None) connected
             plain_decimal b
             [PubMsg "I love this!" "alice!a@example.org"; TimerFires])))
    (TextKey "alice")
  = Return None.
Proof.
  intros b.
  exact (proj2 (preferences_change_only_by_update
                  (fun _ => Return 0.5%float) (fun _ => None) connected
                  plain_decimal
                  [PubMsg "I love this!" "alice!a@example.org"; TimerFires]
                  b eq_refl) (TextKey "alice")).
Defined.

(** ** A channel message: the three ways [on_pubmsg] ends *)

(** When the scorer yields a polarity, the insert succeeds and the
    transport accepts the reply, [on_pubmsg] returns having sent exactly
    one line, to the bot's channel: the reply composed for the sender's
    nick and the label of the polarity.  The row is logged under the nick,
    the slot holds the message, and the timers are untouched. *)
Theorem on_pubmsg_replies_once :
  forall (scorer : string -> outcome float) (rnd : list Z -> option Z)
         (send : string -> string -> outcome unit) (b : MoodCheckBot)
         (message source : string) (p : float),
    scorer message = Return p ->
    unsaturated (sentiment_history (db_manager (mood_ai b))) ->
    send (channel b) (reply_text (nick_of source) (label_of_polarity p))
    = Return tt ->
    exists (b' : MoodCheckBot) (i : Z),
      on_pubmsg scorer rnd send b message source = (b', Return tt) /\
      delivered b'
      = (delivered b
         ++ [(channel b,
              reply_text (nick_of source) (label_of_polarity p))])%list /\
      sentiment_history (db_manager (mood_ai b'))
      = (sentiment_history (db_manager (mood_ai b))
         ++ [ {| hist_id := i; hist_user_id := nick_of source;
                 hist_message := message;
                 hist_sentiment := label_of_polarity p;
                 hist_polarity := p |} ])%list /\
      get_latest_message (mood_ai b')
      = Some (message, label_of_polarity p, p) /\
      timers b' = timers b /\
      channel b' = channel b.
Proof.
  intros scorer rnd send b message source p Hs Hcap Hsend.
  destruct (new_rowid_below_cap rnd _ Hcap) as (i & Hi & _).
  unfold on_pubmsg, analyze_message, analyze_sentiment, log_sentiment.
  rewrite Hs, Hi. simpl. rewrite Hsend.
  eexists. exists i. repeat split.
Qed.

Lemma on_pubmsg_replies_once_witness :
  let b := main {| preferences_table := None;
                   sentiment_history_table := None |} in
  exists (b' : MoodCheckBot) (i : Z),
    on_pubmsg (fun _ => Return 0.5%float) (fun _ => None) connected b
      "I love this!" "alice!a@example.org" = (b', Return tt) /\
    delivered b'
    = (delivered b
       ++ [(channel b,
            reply_text (nick_of "alice!a@example.org")
              (label_of_polarity 0.5%float))])%list /\
    sentiment_history (db_manager (mood_ai b'))
    = (sentiment_history (db_manager (mood_ai b))
       ++ [ {| hist_id := i; hist_user_id := nick_of "alice!a@example.org";
               hist_message := "I love this!";
               hist_sentiment := label_of_polarity 0.5%float;
               hist_polarity := 0.5%float |} ])%list /\
    get_latest_message (mood_ai b')
    = Some ("I love this!", label_of_polarity 0.5%float, 0.5%float) /\
    timers b' = timers b /\
    channel b' = channel b.
Proof.
  intros b.
  apply (on_pubmsg_replies_once (fun _ => Return 0.5%float) (fun _ => None)
           connected b "I love this!" "alice!a@example.org" 0.5%float).
  - reflexivity.
  - intros r [].
  - reflexivity.
Defined.

(** When the transport refuses the reply, the exception leaves [on_pubmsg]
    after the message has been logged and put in the slot: these are not
    undone, and no line is recorded as sent.  When the scorer raises,
    [on_pubmsg] ends with that exception before anything is logged or
    sent, and the bot is as it was. *)
Theorem on_pubmsg_failures :
  forall (scorer : string -> outcome float) (rnd : list Z -> option Z)
         (send : string -> string -> outcome unit) (b : MoodCheckBot)
         (message source : string),
    (forall p e,
        scorer message = Return p ->
        unsaturated (sentiment_history (db_manager (mood_ai b))) ->
        send (channel b) (reply_text (nick_of source) (label_of_polarity p))
        = Raise e ->
        exists b',
          on_pubmsg scorer rnd send b message source = (b', Raise e) /\
          delivered b' = delivered b /\
          get_latest_message (mood_ai b')
          = Some (message, label_of_polarity p, p) /\
          length (sentiment_history (db_manager (mood_ai b')))
          = S (length (sentiment_history (db_manager (mood_ai b))))) /\
    (forall e,
        scorer message = Raise e ->
        on_pubmsg scorer rnd send b message source = (b, Raise e)).
Proof.
  intros scorer rnd send b message source. split.
  - intros p e Hs Hcap Hsend.
    destruct (new_rowid_below_cap rnd _ Hcap) as (i & Hi & _).
    unfold on_pubmsg, analyze_message, analyze_sentiment, log_sentiment.
    rewrite Hs, Hi. simpl. rewrite Hsend.
    eexists. repeat split. simpl. rewrite length_app. simpl. lia.
  - intros e Hs.
    unfold on_pubmsg, analyze_message, analyze_sentiment.
    rewrite Hs. destruct b. reflexivity.
Qed.

Lemma on_pubmsg_failures_witness :
  let b := main {| preferences_table := None;
                   sentiment_history_table := None |} in
  on_pubmsg (fun _ => Raise "TypeError") (fun _ => None) connected b
    "I love this!" "alice!a@example.org"
  = (b, Raise "TypeError").
Proof.
  intros b.
  exact (proj2 (on_pubmsg_failures (fun _ => Raise "TypeError")
                  (fun _ => None) connected b "I love this!"
                  "alice!a@example.org") "TypeError" eq_refl).
Defined.

(** ** Where the bot sends *)

Lemma handle_channel_and_lines (scorer : string -> outcome float)
    (rnd : list Z -> option Z) (send : string -> string -> outcome unit)
    (conv : string -> option Z)
    (b : MoodCheckBot) (ev : event) :
  channel (handle scorer rnd send conv b ev) = channel b /\
  exists lines,
    delivered (handle scorer rnd send conv b ev) = (delivered b ++ lines)%list /\
    Forall (fun line => fst line = channel b) lines /\
    (length lines <= 1)%nat.
Proof.
  destruct ev as [m src| |m u| |u|u e c t]; simpl.
  - unfold on_pubmsg.
    destruct (analyze_message scorer rnd (mood_ai b) m (nick_of src))
      as [ai [[s p]|e]]; simpl.
    + destruct (send (channel b) (reply_text (nick_of src) s)) as [[]|e];
        simpl.
      * split; [reflexivity|]. eexists. split; [reflexivity|].
        split; [constructor; [reflexivity|constructor]|simpl; lia].
      * split; [reflexivity|]. exists []. rewrite app_nil_r.
        split; [reflexivity|]. split; [constructor|simpl; lia].
    + split; [reflexivity|]. exists []. rewrite app_nil_r.
      split; [reflexivity|]. split; [constructor|simpl; lia].
  - unfold timer_fires. destruct (timers b) as [|d rest].
    + split; [reflexivity|]. exists []. rewrite app_nil_r.
      split; [reflexivity|]. split; [constructor|simpl; lia].
    + destruct (check_outcomes send (with_timers rest b))
        as [[_ ->]|[(m & s & p & _ & _ & ->)|(m & s & p & e & _ & _ & ->)]];
        simpl.
      * split; [reflexivity|]. exists []. rewrite app_nil_r.
        split; [reflexivity|]. split; [constructor|simpl; lia].
      * split; [reflexivity|]. eexists. split; [reflexivity|].
        split; [constructor; [reflexivity|constructor]|simpl; lia].
      * split; [reflexivity|]. exists []. rewrite app_nil_r.
        split; [reflexivity|]. split; [constructor|simpl; lia].
  - split; [reflexivity|]. exists []. rewrite app_nil_r.
    split; [reflexivity|]. split; [constructor|simpl; lia].
  - split; [reflexivity|]. exists []. rewrite app_nil_r.
    split; [reflexivity|]. split; [constructor|simpl; lia].
  - split; [reflexivity|]. exists []. rewrite app_nil_r.
    split; [reflexivity|]. split; [constructor|simpl; lia].
  - split; [reflexivity|]. exists []. rewrite app_nil_r.
    split; [reflexivity|]. split; [constructor|simpl; lia].
Qed.

(** The bot keeps its channel, and every line it sends during any sequence
    of events goes to that channel, never to a user or another channel; it
    sends at most one line per event and none is ever taken back. *)
Theorem bot_sends_only_to_its_channel :
  forall (scorer : string -> outcome float) (rnd : list Z -> option Z)
         (send : string -> string -> outcome unit)
         (conv : string -> option Z) (evs : list event)
         (b : MoodCheckBot),
    channel (run scorer rnd send conv b evs) = channel b /\
    exists lines,
      delivered (run scorer rnd send conv b evs) = (delivered b ++ lines)%list /\
      Forall (fun line => fst line = channel b) lines /\
      (length lines <= length evs)%nat.
Proof.
  intros scorer rnd send conv evs.
  induction evs as [|ev evs IH]; intros b.
  - split; [reflexivity|]. exists []. simpl. rewrite app_nil_r.
    split; [reflexivity|]. split; [constructor|lia].
  - simpl.
    destruct (IH (handle scorer rnd send conv b ev)) as (Hc & l2 & Hd & Hf & Hn).
    destruct (handle_channel_and_lines scorer rnd send conv b ev)
      as (Hc1 & l1 & Hd1 & Hf1 & Hn1).
    split; [rewrite Hc; exact Hc1|].
    exists (l1 ++ l2)%list. rewrite Hd, Hd1, <- app_assoc.
    split; [reflexivity|]. split.
    + apply Forall_app. split; [exact Hf1|].
      rewrite Hc1 in Hf. exact Hf.
    + rewrite length_app. simpl. lia.
Qed.

(** ** Pending timers *)

Lemma handle_timers_length (scorer : string -> outcome float)
    (rnd : list Z -> option Z) (send : string -> string -> outcome unit)
    (conv : string -> option Z)
    (b : MoodCheckBot) (ev : event) :
  (length (timers (handle scorer rnd send conv b ev)) <= length (timers b))%nat.
Proof.
  destruct ev as [m src| |m u| |u|u e c t]; simpl; try lia.
  - rewrite (proj2 (on_pubmsg_mood_ai scorer rnd send b m src)). lia.
  - unfold timer_fires. destruct (timers b) as [|d rest] eqn:Ht.
    + rewrite Ht. simpl. lia.
    + destruct (check_outcomes send (with_timers rest b))
        as [[_ ->]|[(m & s & p & _ & _ & ->)|(m & s & p & e & _ & _ & ->)]];
        simpl; rewrite ?length_app; simpl; lia.
Qed.

(** No event adds to the number of pending timers: a tick consumes one and
    starts at most one, and nothing else starts any.  So the bot built by
    [main] never has two timers pending, and a bot left without a pending
    timer stays without one whatever messages arrive. *)
Theorem pending_timers_never_grow :
  forall (scorer : string -> outcome float) (rnd : list Z -> option Z)
         (send : string -> string -> outcome unit)
         (conv : string -> option Z) (evs : list event)
         (b : MoodCheckBot) (f : db_file),
    (length (timers (run scorer rnd send conv b evs)) <= length (timers b))%nat /\
    (length (timers (run scorer rnd send conv (main f) evs)) <= 1)%nat /\
    (timers b = [] -> timers (run scorer rnd send conv b evs) = []).
Proof.
  intros scorer rnd send conv evs.
  assert (Hgen : forall b,
             (length (timers (run scorer rnd send conv b evs))
              <= length (timers b))%nat).
  { induction evs as [|ev evs IH]; intros b; [simpl; lia|].
    simpl. pose proof (IH (handle scorer rnd send conv b ev)).
    pose proof (handle_timers_length scorer rnd send conv b ev). lia. }
  intros b f. split; [apply Hgen|]. split.
  - apply (Hgen (main f)).
  - intros Hb. pose proof (Hgen b) as H. rewrite Hb in H. simpl in H.
    destruct (timers (run scorer rnd send conv b evs)); [reflexivity|].
    simpl in H. lia.
Qed.

Lemma pending_timers_never_grow_witness :
  let scorer := fun _ : string => Return 0.5%float in
  let rnd := fun _ : list Z => @None Z in
  let b :=
    run scorer rnd not_connected plain_decimal
      (main {| preferences_table := None; sentiment_history_table := None |})
      [PubMsg "I love this!" "alice!a@example.org"; TimerFires] in
  timers b = [] /\
  timers (run scorer rnd not_connected plain_decimal b
            [PubMsg "still there?" "bob!b@example.org"; TimerFires]) = [].
Proof.
  intros scorer rnd b.
  assert (Hb : timers b = []) by (vm_compute; reflexivity).
  split; [exact Hb|].
  exact (proj2 (proj2 (pending_timers_never_grow scorer rnd not_connected plain_decimal
                         [PubMsg "still there?" "bob!b@example.org";
                          TimerFires]
                         b {| preferences_table := None;
                              sentiment_history_table := None |})) Hb).
Defined.

(** ** Ticks repeat the latest message *)

(** While no new message is classified and the transport accepts the
    periodic text, every tick sends the same text again, built from the
    record in the slot: after k ticks the channel has received it k times,
    the slot is unchanged and one timer is still pending.  The record is
    not consumed by being announced. *)
Theorem ticks_repeat_the_latest_message :
  forall (scorer : string -> outcome float) (rnd : list Z -> option Z)
         (send : string -> string -> outcome unit)
         (conv : string -> option Z) (m : string)
         (s : sentiment) (p : float) (k : nat) (b : MoodCheckBot),
    get_latest_message (mood_ai b) = Some (m, s, p) ->
    send (channel b) (periodic_text m s) = Return tt ->
    timers b <> [] ->
    delivered (run scorer rnd send conv b (repeat TimerFires k))
    = (delivered b ++ repeat (channel b, periodic_text m s) k)%list /\
    get_latest_message
      (mood_ai (run scorer rnd send conv b (repeat TimerFires k)))
    = Some (m, s, p) /\
    length (timers (run scorer rnd send conv b (repeat TimerFires k)))
    = length (timers b).
Proof.
  intros scorer rnd send conv m s p k.
  induction k as [|k IH]; intros b Hl Hs Ht.
  - unfold run. simpl. rewrite app_nil_r. split; [reflexivity|].
    split; [exact Hl|reflexivity].
  - unfold run in *. simpl.
    destruct (timers b) as [|d rest] eqn:Htb; [congruence|].
    assert (Hstep : handle scorer rnd send conv b TimerFires
                    = schedule_periodic_mood_check
                        (accept (channel b) (periodic_text m s)
                           (with_timers rest b))).
    { simpl. unfold timer_fires. rewrite Htb.
      unfold check_and_respond_periodically. simpl.
      rewrite Hl. rewrite Hs. reflexivity. }
    fold (handle scorer rnd send conv b TimerFires). rewrite Hstep.
    destruct (IH (schedule_periodic_mood_check
                    (accept (channel b) (periodic_text m s)
                       (with_timers rest b))))
      as (Hd & Hlat & Hlen).
    + exact Hl.
    + exact Hs.
    + simpl. destruct rest; discriminate.
    + rewrite Hd, Hlat, Hlen. simpl.
      rewrite <- app_assoc. simpl.
      split; [reflexivity|]. split; [reflexivity|].
      rewrite length_app. simpl. lia.
Qed.

Lemma ticks_repeat_the_latest_message_witness :
  let scorer := fun _ : string => Return 0.5%float in
  let rnd := fun _ : list Z => @None Z in
  let b :=
    run scorer rnd connected plain_decimal
      (main {| preferences_table := None; sentiment_history_table := None |})
      [PubMsg "I love this!" "alice!a@example.org"] in
  delivered (run scorer rnd connected plain_decimal b (repeat TimerFires 3))
  = (delivered b
     ++ repeat (channel b, periodic_text "I love this!" Positive) 3)%list.
Proof.
  intros scorer rnd b.
  apply (ticks_repeat_the_latest_message scorer rnd connected plain_decimal
           "I love this!" Positive 0.5%float 3 b).
  - vm_compute. reflexivity.
  - reflexivity.
  - vm_compute. discriminate.
Defined.
